(** * PWA_Next: the WebSocket relay and its clients

    A shallow embedding of the relay hub (the standalone [ws] server, the
    legacy [server.js] and the Next.js API route), of the reconnecting
    client class [WebSocketClient] (src/lib/websocket.ts) and of the React
    hook [useWebSocket] (src/hooks/useWebSocket.ts), followed by the
    properties of the relay that the specification states (C1 to C10) and
    by further properties read off the code (X1 to X16): the hub as an
    event loop, the HTTP side of the Next.js route, the timers and handler
    tables of the clients, and the way of a message from one hook to
    another.

    Conventions of the embedding:
    - the connection registry (a JS [Map] keyed by client id) is a
      [gmap string Connection]; no property below depends on the order in
      which the map is iterated;
    - the history buffer and the client's message list are [list]s;
    - a handler is a function of the hub state in a small state-and-exception
      monad: a JS [throw] is the outcome [Throw], [try]/[catch] is
      [try_catch], and the state reached when the exception was raised is
      kept, as mutations made before a [throw] persist in JS;
    - what the environment decides (the id drawn by [randomUUID], the clock,
      whether [JSON.parse] or [ws.send] raise) is an argument of the handler
      or a field of the transport. *)

From Stdlib Require Import ZArith QArith String List Lia.
From stdpp Require Import base gmap list strings fin_maps.

(** ** JavaScript values and exceptions *)

Module JS.

(** What [JSON.parse] can return, plus [undefined] for absent properties. *)
#[local] Unset Elimination Schemes.
Inductive JSValue : Type :=
| JUndefined
| JNull
| JBool (b : bool)
| JNumber (q : Q)
| JString (s : string)
| JArray (items : list JSValue)
| JObject (fields : list (string * JSValue)).
#[local] Set Elimination Schemes.

Inductive Exn : Type :=
| SyntaxError      (* JSON.parse on text that is not JSON *)
| TypeError        (* property read on null or undefined *)
| SendError        (* ws.send raised *)
| TransportError.  (* the error handed to an 'error' listener *)

(** ToBoolean: [undefined], [null], [false], [0] and the empty string are
    falsy, everything else (every array and object included) is truthy. *)
Definition truthy (v : JSValue) : bool :=
  match v with
  | JUndefined | JNull => false
  | JBool b => b
  | JNumber q => negb (Qeq_bool q 0)
  | JString s => negb (String.eqb s "")
  | JArray _ | JObject _ => true
  end.

(** [v === 'literal'] *)
Definition is_string (v : JSValue) (literal : string) : bool :=
  match v with
  | JString s => String.eqb s literal
  | _ => false
  end.

Fixpoint assoc (key : string) (fields : list (string * JSValue)) : JSValue :=
  match fields with
  | [] => JUndefined
  | (k, v) :: rest => if String.eqb k key then v else assoc key rest
  end.

(** [v.key] and the destructuring [{ key } = v]: a [TypeError] on [null] and
    [undefined], the own property of an object, [undefined] on a primitive
    or an array (the hub only reads [type] and [content]). *)
Definition prop (v : JSValue) (key : string) : Exn + JSValue :=
  match v with
  | JUndefined | JNull => inl TypeError
  | JObject fields => inr (assoc key fields)
  | _ => inr JUndefined
  end.

Definition JObject_fields (v : JSValue) : list (string * JSValue) :=
  match v with
  | JObject fields => fields
  | _ => []
  end.

(** An inbound frame is represented by what [JSON.parse(data.toString())]
    makes of it: [None] when the text is not JSON and the call raises. *)
Definition Parsed : Type := option JSValue.

End JS.

(** ** The hub *)

Module Hub.
Import JS.

Definition MAX_MESSAGES : nat := 100.

(** The server-side socket of the [ws] package, as far as the hub looks at
    it: its [readyState] (1 is OPEN) and whether a [send] on it raises. The
    package is not part of the repository; the servers wrap the sends of
    [broadcast] in [try]/[catch], so a send that raises is a behaviour the
    transport may have, whatever its [readyState]. *)
Record WebSocket : Type := {
  readyState : Z;
  sendThrows : bool
}.

Record Connection : Type := {
  ws : WebSocket;
  connectedAt : string;
  userAgent : option string
}.

(** An entry of the history: [{ type, content, clientId, timestamp }]. *)
Record MessageData : Type := {
  msg_type : JSValue;
  msg_content : JSValue;
  msg_clientId : string;
  msg_timestamp : string
}.

(** The objects handed to [JSON.stringify] before a [send]. *)
Inductive Frame : Type :=
| Connected (clientId : string) (userCount : nat)
            (recentMessages : list MessageData)
| UserCount (count : nat)
| Message (messageData : MessageData)
| Pong
| Echo (message : JSValue).  (* legacy: the client's own object, re-sent *)

(** Every call of [ws.send], with the id of the connection it was made on. *)
Inductive WireEvent : Type :=
| Sent (to : string) (frame : Frame)
| SendFailed (to : string) (frame : Frame).

Record State : Type := {
  connections : gmap string Connection;
  messages : list MessageData;
  wire : list WireEvent;      (* oldest first *)
  console : list Exn          (* console.error calls, oldest first *)
}.

Definition initial : State :=
  {| connections := ∅; messages := []; wire := []; console := [] |}.

(** *** State and exceptions *)

Inductive Outcome (A : Type) : Type :=
| Normal (a : A) (h : State)
| Throw (e : Exn) (h : State).
Arguments Normal {A} a h.
Arguments Throw {A} e h.

Definition M (A : Type) : Type := State -> Outcome A.

Definition ret {A} (a : A) : M A := fun h => Normal a h.

Definition bind {A B} (c : M A) (k : A -> M B) : M B :=
  fun h =>
    match c h with
    | Normal a h' => k a h'
    | Throw e h' => Throw e h'
    end.

Definition throw {A} (e : Exn) : M A := fun h => Throw e h.

Definition try_catch {A} (body : M A) (handler : Exn -> M A) : M A :=
  fun h =>
    match body h with
    | Normal a h' => Normal a h'
    | Throw e h' => handler e h'
    end.

Notation "'let*' x ':=' c 'in' k" := (bind c (fun x => k))
  (at level 10, x name, c at level 100, k at level 200).
Notation "c ';;' k" := (bind c (fun _ => k))
  (at level 100, k at level 200, right associativity).

Definition state_of {A} (o : Outcome A) : State :=
  match o with
  | Normal _ h => h
  | Throw _ h => h
  end.

Definition lift {A} (r : Exn + A) : M A :=
  match r with
  | inl e => throw e
  | inr a => ret a
  end.

Fixpoint for_each {A} (l : list A) (body : A -> M unit) : M unit :=
  match l with
  | [] => ret tt
  | x :: rest => body x ;; for_each rest body
  end.

(** *** Primitive operations on the hub state *)

Definition connections_set (clientId : string) (c : Connection) : M unit :=
  fun h => Normal tt {| connections := <[clientId := c]> (connections h);
                        messages := messages h; wire := wire h;
                        console := console h |}.

Definition connections_delete (clientId : string) : M unit :=
  fun h => Normal tt {| connections := delete clientId (connections h);
                        messages := messages h; wire := wire h;
                        console := console h |}.

Definition connections_size : M nat :=
  fun h => Normal (size (connections h)) h.

Definition console_error (e : Exn) : M unit :=
  fun h => Normal tt {| connections := connections h; messages := messages h;
                        wire := wire h; console := console h ++ [e] |}.

Definition log_wire (w : WireEvent) (h : State) : State :=
  {| connections := connections h; messages := messages h;
     wire := wire h ++ [w]; console := console h |}.

(** [socket.send(JSON.stringify(frame))] on the socket of connection [to]. *)
Definition ws_send (to : string) (socket : WebSocket) (frame : Frame) : M unit :=
  fun h =>
    if sendThrows socket
    then Throw SendError (log_wire (SendFailed to frame) h)
    else Normal tt (log_wire (Sent to frame) h).

(** [messages.slice(-n)] *)
Definition slice_last {A} (n : nat) (l : list A) : list A :=
  drop (length l - n) l.

(** [messages.push(m); if (messages.length > MAX_MESSAGES) messages.shift()] *)
Definition push_shift (m : MessageData) (history : list MessageData)
  : list MessageData :=
  let pushed := history ++ [m] in
  if (MAX_MESSAGES <? length pushed)%nat then tail pushed else pushed.

Definition messages_append (m : MessageData) : M unit :=
  fun h => Normal tt {| connections := connections h;
                        messages := push_shift m (messages h);
                        wire := wire h; console := console h |}.

Definition messages_recent (n : nat) : M (list MessageData) :=
  fun h => Normal (slice_last n (messages h)) h.

(** *** broadcast (identical in the three servers)

    The loop visits the entries of the registry as they are when the call
    starts: the only mutation made while iterating is the deletion of the
    entry being visited, which a JS [Map] iterator tolerates. *)
Definition broadcast_entry (data : Frame) (excludeClientId : string)
    (entry : string * Connection) : M unit :=
  let '(clientId, connection) := entry in
  if negb (String.eqb clientId excludeClientId)
     && (readyState (ws connection) =? 1)%Z
  then try_catch (ws_send clientId (ws connection) data)
                 (fun error => console_error error ;;
                               connections_delete clientId)
  else ret tt.

Definition broadcast (data : Frame) (excludeClientId : string) : M unit :=
  fun h =>
    for_each (map_to_list (connections h))
             (broadcast_entry data excludeClientId) h.

(** *** The standalone server (unnamed/part_006, first file) *)

Definition onConnection (clientId : string) (socket : WebSocket)
    (connectedAt : string) (userAgent : option string) : M unit :=
  connections_set clientId
    {| ws := socket; connectedAt := connectedAt; userAgent := userAgent |} ;;
  let* userCount := connections_size in
  let* recentMessages := messages_recent 10 in
  ws_send clientId socket (Connected clientId userCount recentMessages) ;;
  broadcast (UserCount userCount) clientId.

Definition JSON_parse (data : Parsed) : M JSValue :=
  match data with
  | None => throw SyntaxError
  | Some v => ret v
  end.

(** [now] is the value of [new Date().toISOString()] at receipt. *)
Definition onMessage (clientId : string) (socket : WebSocket)
    (data : Parsed) (now : string) : M unit :=
  try_catch
    (let* message := JSON_parse data in
     let* type := lift (prop message "type") in
     let* content := lift (prop message "content") in
     if is_string type "message" && truthy content then
       let messageData :=
         {| msg_type := type; msg_content := content;
            msg_clientId := clientId; msg_timestamp := now |} in
       messages_append messageData ;;
       broadcast (Message messageData) clientId
     else
       let* type' := lift (prop message "type") in
       if is_string type' "ping" then ws_send clientId socket Pong
       else ret tt)
    (fun error => console_error error).

Definition onClose (clientId : string) : M unit :=
  connections_delete clientId ;;
  let* count := connections_size in
  broadcast (UserCount count) clientId.

Definition onError (clientId : string) : M unit :=
  console_error TransportError ;;
  connections_delete clientId ;;
  let* count := connections_size in
  broadcast (UserCount count) clientId.

(** *** The Next.js API route (unnamed/part_001)

    Its registry stores the socket itself, extended with the same three
    fields; [onConnection], [onClose] and [onError] are those above (with
    ['Unknown'] for a missing user agent). The message handler reads the
    properties of the parsed object instead of destructuring it. *)
Module NextApi.

Definition onMessage (clientId : string) (socket : WebSocket)
    (data : Parsed) (now : string) : M unit :=
  try_catch
    (let* message := JSON_parse data in
     let* type := lift (prop message "type") in
     let* content := lift (prop message "content") in
     if is_string type "message" && truthy content then
       let* content' := lift (prop message "content") in
       let messageData :=
         {| msg_type := JString "message"; msg_content := content';
            msg_clientId := clientId; msg_timestamp := now |} in
       messages_append messageData ;;
       broadcast (Message messageData) clientId
     else
       let* type' := lift (prop message "type") in
       if is_string type' "ping" then ws_send clientId socket Pong
       else ret tt)
    (fun error => console_error error).

End NextApi.

(** *** The legacy server (unnamed/part_006, second file, server.js)

    The message handler has no [try]/[catch], does not look at [content],
    and broadcasts the parsed object it received, not the stamped record it
    stores. *)
Module Legacy.

Definition onMessage (clientId : string) (socket : WebSocket)
    (data : Parsed) (now : string) : M unit :=
  let* message := JSON_parse data in
  let* type := lift (prop message "type") in
  let* content := lift (prop message "content") in
  if is_string type "message" then
    messages_append
      {| msg_type := type; msg_content := content;
         msg_clientId := clientId; msg_timestamp := now |} ;;
    broadcast (Echo message) clientId
  else
    let* type' := lift (prop message "type") in
    if is_string type' "ping" then ws_send clientId socket Pong
    else ret tt.

End Legacy.

(** *** Runs of the message handler *)

Record Inbound : Type := {
  in_clientId : string;
  in_socket : WebSocket;
  in_data : Parsed;
  in_now : string
}.

Definition receive (i : Inbound) (h : State) : State :=
  state_of (onMessage (in_clientId i) (in_socket i) (in_data i) (in_now i) h).

Definition receive_all (frames : list Inbound) (h : State) : State :=
  fold_left (fun h i => receive i h) frames h.

End Hub.

(** ** The browser side: sockets and timers

    Both clients create browser [WebSocket]s and arm [setTimeout] timers.
    The browser is a store of sockets (index = identity, value =
    [readyState]) and of pending timers; [scheduled] keeps the delay of
    every [setTimeout] call, oldest first. *)

Module Browser.

Definition CONNECTING : Z := 0.
Definition OPEN : Z := 1.
Definition CLOSING : Z := 2.
Definition CLOSED : Z := 3.

Record Env : Type := {
  sockets : list Z;
  timers : list (nat * Q);   (* pending: timer id, delay in ms *)
  next_timer : nat;
  scheduled : list Q
}.

(** Timer ids are positive, so a stored id is truthy. *)
Definition fresh : Env :=
  {| sockets := []; timers := []; next_timer := 1; scheduled := [] |}.

Definition new_WebSocket (e : Env) : nat * Env :=
  (length (sockets e),
   {| sockets := sockets e ++ [CONNECTING]; timers := timers e;
      next_timer := next_timer e; scheduled := scheduled e |}).

Definition readyState (s : nat) (e : Env) : option Z := sockets e !! s.

Definition set_readyState (s : nat) (r : Z) (e : Env) : Env :=
  {| sockets := <[s := r]> (sockets e); timers := timers e;
     next_timer := next_timer e; scheduled := scheduled e |}.

(** [socket.close()]: a socket that is connecting or open starts closing
    (its close event is delivered later); otherwise nothing happens. *)
Definition close (s : nat) (e : Env) : Env :=
  match readyState s e with
  | Some r => if (r <? CLOSING)%Z then set_readyState s CLOSING e else e
  | None => e
  end.

Definition setTimeout (delay : Q) (e : Env) : nat * Env :=
  (next_timer e,
   {| sockets := sockets e; timers := timers e ++ [(next_timer e, delay)];
      next_timer := S (next_timer e); scheduled := scheduled e ++ [delay] |}).

Definition clearTimeout (t : nat) (e : Env) : Env :=
  {| sockets := sockets e;
     timers := List.filter (fun p => negb (Nat.eqb (fst p) t)) (timers e);
     next_timer := next_timer e; scheduled := scheduled e |}.

Definition pending (t : nat) (e : Env) : bool :=
  existsb (fun p => Nat.eqb (fst p) t) (timers e).

(** [Math.pow] on the rationals, results in lowest terms: the powers of two
    used here and their products with 3000 are exact as doubles. *)
Definition Math_pow (base : Q) (exponent : Z) : Q := Qred (Qpower base exponent).

Definition times (a b : Q) : Q := Qred (a * b).

(** What the browser can deliver to a client. *)
Inductive Event : Type :=
| Open (s : nat)       (* the handshake of socket s succeeded *)
| Close (s : nat)      (* socket s is now closed *)
| Error (s : nat)
| Timeout (t : nat).   (* timer t fires *)

End Browser.

(** ** The client class (src/lib/websocket.ts) *)

Module WebSocketClient.
Import Browser.

Definition maxReconnectAttempts : Z := 5.
Definition reconnectInterval : Q := 3000.

Record Client : Type := {
  ws : option nat;
  reconnectTimer : option nat;
  reconnectAttempts : Z;
  url_valid : bool;             (* whether [new WebSocket(url)] returns *)
  notified : list bool;         (* calls of the connection handlers *)
  env : Env
}.

Definition new (url_valid : bool) : Client :=
  {| ws := None; reconnectTimer := None; reconnectAttempts := 0;
     url_valid := url_valid; notified := []; env := fresh |}.

Definition with_env (e : Env) (c : Client) : Client :=
  {| ws := ws c; reconnectTimer := reconnectTimer c;
     reconnectAttempts := reconnectAttempts c; url_valid := url_valid c;
     notified := notified c; env := e |}.

Definition notifyConnectionHandlers (connected : bool) (c : Client) : Client :=
  {| ws := ws c; reconnectTimer := reconnectTimer c;
     reconnectAttempts := reconnectAttempts c; url_valid := url_valid c;
     notified := notified c ++ [connected]; env := env c |}.

Definition scheduleReconnect (c : Client) : Client :=
  if (maxReconnectAttempts <=? reconnectAttempts c)%Z then c
  else
    let e1 := match reconnectTimer c with
              | Some t => clearTimeout t (env c)
              | None => env c
              end in
    let delay := times reconnectInterval (Math_pow 2 (reconnectAttempts c)) in
    let '(t, e2) := setTimeout delay e1 in
    {| ws := ws c; reconnectTimer := Some t;
       reconnectAttempts := reconnectAttempts c; url_valid := url_valid c;
       notified := notified c; env := e2 |}.

Definition is_open (c : Client) : bool :=
  match ws c with
  | Some s => match readyState s (env c) with
              | Some r => (r =? OPEN)%Z
              | None => false
              end
  | None => false
  end.

Definition connect (c : Client) : Client :=
  if is_open c then c
  else if url_valid c then
    let '(s, e) := new_WebSocket (env c) in
    {| ws := Some s; reconnectTimer := reconnectTimer c;
       reconnectAttempts := reconnectAttempts c; url_valid := url_valid c;
       notified := notified c; env := e |}
  else scheduleReconnect c.

Definition disconnect (c : Client) : Client :=
  let c1 := match reconnectTimer c with
            | Some t =>
                {| ws := ws c; reconnectTimer := None;
                   reconnectAttempts := reconnectAttempts c;
                   url_valid := url_valid c; notified := notified c;
                   env := clearTimeout t (env c) |}
            | None => c
            end in
  match ws c1 with
  | Some s =>
      {| ws := None; reconnectTimer := reconnectTimer c1;
         reconnectAttempts := reconnectAttempts c1;
         url_valid := url_valid c1; notified := notified c1;
         env := close s (env c1) |}
  | None => c1
  end.

(** The listeners installed by [setupEventListeners] and the timer callback. *)
Definition onopen (c : Client) : Client :=
  notifyConnectionHandlers true
    {| ws := ws c; reconnectTimer := reconnectTimer c; reconnectAttempts := 0;
       url_valid := url_valid c; notified := notified c; env := env c |}.

Definition onclose (c : Client) : Client :=
  scheduleReconnect (notifyConnectionHandlers false c).

Definition onerror (c : Client) : Client :=
  notifyConnectionHandlers false c.

Definition on_timeout (c : Client) : Client :=
  connect
    {| ws := ws c; reconnectTimer := reconnectTimer c;
       reconnectAttempts := reconnectAttempts c + 1;
       url_valid := url_valid c; notified := notified c; env := env c |}.

(** One event of the browser; [None] when the browser cannot deliver it
    (no such socket or timer, or a socket in the wrong state). Every socket
    of the store was created by [connect] and carries the listeners. *)
Definition step (ev : Event) (c : Client) : option Client :=
  match ev with
  | Open s =>
      match readyState s (env c) with
      | Some r => if (r =? CONNECTING)%Z
                  then Some (onopen (with_env (set_readyState s OPEN (env c)) c))
                  else None
      | None => None
      end
  | Close s =>
      match readyState s (env c) with
      | Some r => if (r =? CLOSED)%Z then None
                  else Some (onclose (with_env (set_readyState s CLOSED (env c)) c))
      | None => None
      end
  | Error s =>
      match readyState s (env c) with
      | Some r => if (r =? CLOSED)%Z then None else Some (onerror c)
      | None => None
      end
  | Timeout t =>
      if pending t (env c)
      then Some (on_timeout (with_env (clearTimeout t (env c)) c))
      else None
  end.

Fixpoint run (evs : list Event) (c : Client) : option Client :=
  match evs with
  | [] => Some c
  | ev :: rest => match step ev c with
                  | Some c' => run rest c'
                  | None => None
                  end
  end.

End WebSocketClient.

(** ** The React hook (src/hooks/useWebSocket.ts)

    The refs ([wsRef], [reconnectTimerRef], [reconnectAttemptsRef]) and the
    pieces of React state are fields of one record, and each callback is a
    function of it that reads the current values. [step] and [run] hand a
    browser event to the callbacks and nothing more; what React does
    between two events (re-creation of the callbacks, re-runs of the effect)
    is in [Mounted] below. *)

Module UseWebSocket.
Import Browser.

(** src/types/index.ts *)
Record MessageData : Type := {
  content : string;
  clientId : string;
  timestamp : string
}.

Record WebSocketMessage : Type := {
  msg_type : string;
  msg_clientId : option string;
  msg_content : option string;
  msg_count : option Z;
  msg_userCount : option Z;
  msg_recentMessages : option (list MessageData);
  msg_timestamp : option string
}.

(** The truthy value of an optional string property: neither [undefined]
    nor the empty string. *)
Definition truthy_string (o : option string) : option string :=
  match o with
  | Some s => if String.eqb s "" then None else Some s
  | None => None
  end.

Definition maxReconnectAttempts : Z := 5.
Definition reconnectInterval : Q := 3000.

Record Hook : Type := {
  connected : bool;
  connecting : bool;
  userCount : Z;
  messages : list MessageData;      (* newest first *)
  wsRef : option nat;
  reconnectTimerRef : option nat;
  reconnectAttemptsRef : Z;
  url_valid : bool;                 (* whether [new WebSocket(url)] returns *)
  env : Env
}.

Definition initial (url_valid : bool) : Hook :=
  {| connected := false; connecting := false; userCount := 0; messages := [];
     wsRef := None; reconnectTimerRef := None; reconnectAttemptsRef := 0;
     url_valid := url_valid; env := fresh |}.

Definition with_env (e : Env) (h : Hook) : Hook :=
  {| connected := connected h; connecting := connecting h;
     userCount := userCount h; messages := messages h; wsRef := wsRef h;
     reconnectTimerRef := reconnectTimerRef h;
     reconnectAttemptsRef := reconnectAttemptsRef h;
     url_valid := url_valid h; env := e |}.

Definition setConnected (b : bool) (h : Hook) : Hook :=
  {| connected := b; connecting := connecting h;
     userCount := userCount h; messages := messages h; wsRef := wsRef h;
     reconnectTimerRef := reconnectTimerRef h;
     reconnectAttemptsRef := reconnectAttemptsRef h;
     url_valid := url_valid h; env := env h |}.

Definition setConnecting (b : bool) (h : Hook) : Hook :=
  {| connected := connected h; connecting := b;
     userCount := userCount h; messages := messages h; wsRef := wsRef h;
     reconnectTimerRef := reconnectTimerRef h;
     reconnectAttemptsRef := reconnectAttemptsRef h;
     url_valid := url_valid h; env := env h |}.

Definition setUserCount (n : Z) (h : Hook) : Hook :=
  {| connected := connected h; connecting := connecting h;
     userCount := n; messages := messages h; wsRef := wsRef h;
     reconnectTimerRef := reconnectTimerRef h;
     reconnectAttemptsRef := reconnectAttemptsRef h;
     url_valid := url_valid h; env := env h |}.

Definition setMessages (f : list MessageData -> list MessageData) (h : Hook)
  : Hook :=
  {| connected := connected h; connecting := connecting h;
     userCount := userCount h; messages := f (messages h); wsRef := wsRef h;
     reconnectTimerRef := reconnectTimerRef h;
     reconnectAttemptsRef := reconnectAttemptsRef h;
     url_valid := url_valid h; env := env h |}.

Definition set_attempts (n : Z) (h : Hook) : Hook :=
  {| connected := connected h; connecting := connecting h;
     userCount := userCount h; messages := messages h; wsRef := wsRef h;
     reconnectTimerRef := reconnectTimerRef h;
     reconnectAttemptsRef := n;
     url_valid := url_valid h; env := env h |}.

Definition scheduleReconnect (h : Hook) : Hook :=
  if (maxReconnectAttempts <=? reconnectAttemptsRef h)%Z then h
  else
    let e1 := match reconnectTimerRef h with
              | Some t => clearTimeout t (env h)
              | None => env h
              end in
    let delay :=
      times reconnectInterval (Math_pow 2 (reconnectAttemptsRef h - 1)) in
    let '(t, e2) := setTimeout delay e1 in
    {| connected := connected h; connecting := connecting h;
       userCount := userCount h; messages := messages h; wsRef := wsRef h;
       reconnectTimerRef := Some t;
       reconnectAttemptsRef := reconnectAttemptsRef h;
       url_valid := url_valid h; env := e2 |}.

Definition is_open (h : Hook) : bool :=
  match wsRef h with
  | Some s => match readyState s (env h) with
              | Some r => (r =? OPEN)%Z
              | None => false
              end
  | None => false
  end.

Definition connect (h : Hook) : Hook :=
  if is_open h then h
  else if connecting h then h
  else
    let h1 := setConnecting true h in
    let h2 := set_attempts (reconnectAttemptsRef h1 + 1) h1 in
    if url_valid h2 then
      let '(s, e) := new_WebSocket (env h2) in
      {| connected := connected h2; connecting := connecting h2;
         userCount := userCount h2; messages := messages h2;
         wsRef := Some s;
         reconnectTimerRef := reconnectTimerRef h2;
         reconnectAttemptsRef := reconnectAttemptsRef h2;
         url_valid := url_valid h2; env := e |}
    else scheduleReconnect (setConnecting false h2).

Definition onopen (h : Hook) : Hook :=
  set_attempts 0 (setConnecting false (setConnected true h)).

Definition onclose (h : Hook) : Hook :=
  scheduleReconnect (setConnecting false (setConnected false h)).

Definition onerror (h : Hook) : Hook :=
  setConnecting false (setConnected false h).

(** [onmessage]; [None] stands for a frame on which [JSON.parse] or the
    read of [message.type] raises, which the [catch] only logs. *)
Definition onmessage (data : option WebSocketMessage) (h : Hook) : Hook :=
  match data with
  | None => h
  | Some message =>
      if String.eqb (msg_type message) "connected" then
        let h1 := match msg_userCount message with
                  | Some n => setUserCount n h
                  | None => h
                  end in
        match msg_recentMessages message with
        | Some recent => setMessages (fun _ => recent) h1
        | None => h1
        end
      else if String.eqb (msg_type message) "userCount" then
        match msg_count message with
        | Some n => setUserCount n h
        | None => h
        end
      else if String.eqb (msg_type message) "message" then
        match truthy_string (msg_content message),
              truthy_string (msg_clientId message),
              truthy_string (msg_timestamp message) with
        | Some c, Some i, Some t =>
            let newMessage :=
              {| content := c; clientId := i; timestamp := t |} in
            setMessages (fun prev => take 100 (newMessage :: prev)) h
        | _, _, _ => h
        end
      else h
  end.

(** The cleanup returned by the effect. *)
Definition cleanup (h : Hook) : Hook :=
  let e1 := match reconnectTimerRef h with
            | Some t => clearTimeout t (env h)
            | None => env h
            end in
  let e2 := match wsRef h with
            | Some s => close s e1
            | None => e1
            end in
  with_env e2 h.

Definition step (ev : Event) (h : Hook) : option Hook :=
  match ev with
  | Open s =>
      match readyState s (env h) with
      | Some r => if (r =? CONNECTING)%Z
                  then Some (onopen (with_env (set_readyState s OPEN (env h)) h))
                  else None
      | None => None
      end
  | Close s =>
      match readyState s (env h) with
      | Some r => if (r =? CLOSED)%Z then None
                  else Some (onclose (with_env (set_readyState s CLOSED (env h)) h))
      | None => None
      end
  | Error s =>
      match readyState s (env h) with
      | Some r => if (r =? CLOSED)%Z then None else Some (onerror h)
      | None => None
      end
  | Timeout t =>
      if pending t (env h)
      then Some (connect (with_env (clearTimeout t (env h)) h))
      else None
  end.

Fixpoint run (evs : list Event) (h : Hook) : option Hook :=
  match evs with
  | [] => Some h
  | ev :: rest => match step ev h with
                  | Some h' => run rest h'
                  | None => None
                  end
  end.

Definition receive_all (frames : list (option WebSocketMessage)) (h : Hook)
  : Hook :=
  fold_left (fun h data => onmessage data h) frames h.

End UseWebSocket.

(** ** The hook under React

    [connect] is re-created whenever [connecting] changes (its dependencies
    are [url, connecting]) and the effect depends on [connect]: after a
    callback that has changed [connecting], React 18 renders again, runs the
    cleanup of the effect and then the effect, which calls the new [connect].
    State updates made within one callback are batched, so a callback that
    sets [connecting] and sets it back causes no render. *)

Module Mounted.
Import Browser.

(** What React does after a callback, [before] being the value of
    [connecting] at the last render. The re-run of the effect can itself
    set [connecting] (to true), which causes one more render; the [connect]
    of that render returns at its guard. *)
Definition rerender (before : bool) (h : UseWebSocket.Hook)
  : UseWebSocket.Hook :=
  if Bool.eqb (UseWebSocket.connecting h) before then h
  else
    let h1 := UseWebSocket.connect (UseWebSocket.cleanup h) in
    if Bool.eqb (UseWebSocket.connecting h1) (UseWebSocket.connecting h)
    then h1
    else UseWebSocket.connect (UseWebSocket.cleanup h1).

(** The first render and its effect. *)
Definition mount (url_valid : bool) : UseWebSocket.Hook :=
  rerender false (UseWebSocket.connect (UseWebSocket.initial url_valid)).

Definition deliver (ev : Event) (h : UseWebSocket.Hook)
  : option UseWebSocket.Hook :=
  match UseWebSocket.step ev h with
  | Some h' => Some (rerender (UseWebSocket.connecting h) h')
  | None => None
  end.

Fixpoint run (evs : list Event) (h : UseWebSocket.Hook)
  : option UseWebSocket.Hook :=
  match evs with
  | [] => Some h
  | ev :: rest => match deliver ev h with
                  | Some h' => run rest h'
                  | None => None
                  end
  end.

End Mounted.

(** ** Specification-level functions used in the statements *)

Module HubSpec.
Import JS Hub.

(** The entries on which [broadcast] calls [send]. *)
Definition targeted (excludeClientId : string) (entry : string * Connection)
  : bool :=
  negb (String.eqb (fst entry) excludeClientId)
  && (readyState (ws (snd entry)) =? 1)%Z.

Definition call (data : Frame) (entry : string * Connection) : WireEvent :=
  if sendThrows (ws (snd entry)) then SendFailed (fst entry) data
  else Sent (fst entry) data.

Definition calls (data : Frame) (excludeClientId : string)
    (entries : list (string * Connection)) : list WireEvent :=
  List.map (call data) (List.filter (targeted excludeClientId) entries).

(** Whether [clientId] is the key of an entry whose send raises. *)
Definition evicted (excludeClientId clientId : string)
    (entries : list (string * Connection)) : bool :=
  existsb (fun entry => String.eqb (fst entry) clientId
                        && targeted excludeClientId entry
                        && sendThrows (ws (snd entry))) entries.

(** [send] was called for [clientId] with [data] among the wire events [w]. *)
Definition send_called (clientId : string) (data : Frame)
    (w : list WireEvent) : Prop :=
  In (Sent clientId data) w \/ In (SendFailed clientId data) w.

Definition recipient (w : WireEvent) : string :=
  match w with
  | Sent to _ => to
  | SendFailed to _ => to
  end.

Definition payload (w : WireEvent) : Frame :=
  match w with
  | Sent _ f => f
  | SendFailed _ f => f
  end.

(** The record the standalone handler stores for an inbound frame, if it
    accepts it. *)
Definition accepted (i : Inbound) : option MessageData :=
  match in_data i with
  | Some (JObject fields) =>
      if is_string (assoc "type" fields) "message"
         && truthy (assoc "content" fields)
      then Some {| Hub.msg_type := assoc "type" fields;
                   Hub.msg_content := assoc "content" fields;
                   Hub.msg_clientId := in_clientId i;
                   Hub.msg_timestamp := in_now i |}
      else None
  | _ => None
  end.

Definition appended (frames : list Inbound) : list MessageData :=
  omap accepted frames.

(** The frames the standalone handler drops without any effect but a log
    line: text that is not JSON, [null], and values whose [type] is neither
    ['message'] (with truthy content) nor ['ping']. *)
Definition discarded (data : Parsed) : bool :=
  match data with
  | Some (JObject fields) =>
      negb (is_string (assoc "type" fields) "message"
            && truthy (assoc "content" fields))
      && negb (is_string (assoc "type" fields) "ping")
  | _ => true
  end.

(** What [console.error] receives for a frame. *)
Definition complaint (data : Parsed) : list Exn :=
  match data with
  | None => [SyntaxError]
  | Some JNull | Some JUndefined => [TypeError]
  | _ => []
  end.

(** The wire events [new] are a presence update for [registry] that
    spares [clientId]: each carries the size of [registry] and goes to
    somebody else, and every other entry of [registry] that is open and whose
    send works has got one. *)
Definition presence_update (clientId : string)
    (registry : gmap string Connection) (new : list WireEvent) : Prop :=
  (forall w, In w new ->
     recipient w <> clientId /\ payload w = UserCount (size registry))
  /\ (forall id c,
        registry !! id = Some c -> id <> clientId ->
        readyState (ws c) = 1%Z -> sendThrows (ws c) = false ->
        In (Sent id (UserCount (size registry))) new).

Definition set_messages (ms : list MessageData) (h : State) : State :=
  {| connections := connections h; messages := ms; wire := wire h;
     console := console h |}.

Definition set_connections (m : gmap string Connection) (h : State) : State :=
  {| connections := m; messages := messages h; wire := wire h;
     console := console h |}.

End HubSpec.

(** ** Concrete inputs used by the examples *)

Module Examples.
Import JS Hub.

Definition open_socket : WebSocket := {| readyState := 1; sendThrows := false |}.
Definition closing_socket : WebSocket := {| readyState := 2; sendThrows := false |}.
Definition broken_socket : WebSocket := {| readyState := 1; sendThrows := true |}.

Definition conn (socket : WebSocket) : Connection :=
  {| ws := socket; connectedAt := "2024-05-01T10:00:00.000Z";
     userAgent := Some "Mozilla/5.0" |}.

Definition with_connections (m : gmap string Connection) : State :=
  {| connections := m; messages := []; wire := []; console := [] |}.

(** "a" is open, "b" is closing. *)
Definition hub_closing : State :=
  with_connections (<["a" := conn open_socket]>
                    (<["b" := conn closing_socket]> ∅)).

(** "a" and "c" are open, the send on "b" raises. *)
Definition hub_broken : State :=
  with_connections (<["a" := conn open_socket]>
                    (<["b" := conn broken_socket]>
                     (<["c" := conn open_socket]> ∅))).

(** "a" and "b" are open. *)
Definition hub_pair : State :=
  with_connections (<["a" := conn open_socket]>
                    (<["b" := conn open_socket]> ∅)).

Definition text_frame (content : string) : JSValue :=
  JObject [("type", JString "message"); ("content", JString content)].

Definition inbound_from_a (data : Parsed) (now : string) : Inbound :=
  {| in_clientId := "a"; in_socket := open_socket; in_data := data;
     in_now := now |}.

(** A message whose content is the number 42. *)
Definition number_frame : JSValue :=
  JObject [("type", JString "message"); ("content", JNumber 42)].

(** A message that names a sender and a time of its own. *)
Definition forged_frame : JSValue :=
  JObject [("type", JString "message"); ("content", JString "hi");
           ("clientId", JString "mallory");
           ("timestamp", JString "1970-01-01T00:00:00.000Z")].

Definition stamped (type content : JSValue) (clientId now : string)
  : MessageData :=
  {| Hub.msg_type := type; Hub.msg_content := content;
     Hub.msg_clientId := clientId; Hub.msg_timestamp := now |}.

End Examples.

Module HookSpec.
Import UseWebSocket.

(** The entry the hook makes of an inbound frame, if it accepts it as a chat
    message: the type is ['message'] and [content], [clientId] and
    [timestamp] are all present and non-empty. *)
Definition accepted_message (data : option WebSocketMessage)
  : option MessageData :=
  match data with
  | Some message =>
      if String.eqb (msg_type message) "message" then
        match truthy_string (msg_content message),
              truthy_string (msg_clientId message),
              truthy_string (msg_timestamp message) with
        | Some c, Some i, Some t =>
            Some {| content := c; clientId := i; timestamp := t |}
        | _, _, _ => None
        end
      else None
  | None => None
  end.

(** The history a [connected] envelope carries, which replaces the list. *)
Definition replacement (data : option WebSocketMessage)
  : option (list MessageData) :=
  match data with
  | Some message =>
      if String.eqb (msg_type message) "connected"
      then msg_recentMessages message else None
  | None => None
  end.

Definition keeps_list (data : option WebSocketMessage) : bool :=
  match replacement data with
  | Some _ => false
  | None => true
  end.

End HookSpec.

Module ClientExamples.
Import Browser.

(** Five attempts in a row, each ended by the close of its socket before it
    opened; the timer armed by a close starts the next attempt. *)
Definition five_failures : list Event :=
  [Close 0; Timeout 1; Close 1; Timeout 2; Close 2; Timeout 3; Close 3;
   Timeout 4; Close 4].

(** One more attempt, started by the fifth timer, that fails as well. *)
Definition six_failures : list Event :=
  five_failures ++ [Timeout 5; Close 5].

Definition entry (n : string) : UseWebSocket.MessageData :=
  {| UseWebSocket.content := n; UseWebSocket.clientId := "a";
     UseWebSocket.timestamp := "2024-05-01T10:00:00.000Z" |}.

Definition connected_envelope (recent : list UseWebSocket.MessageData)
  : UseWebSocket.WebSocketMessage :=
  {| UseWebSocket.msg_type := "connected"; UseWebSocket.msg_clientId := Some "a";
     UseWebSocket.msg_content := None; UseWebSocket.msg_count := None;
     UseWebSocket.msg_userCount := Some 1%Z;
     UseWebSocket.msg_recentMessages := Some recent;
     UseWebSocket.msg_timestamp := None |}.

Definition message_envelope (content clientId timestamp : option string)
  : UseWebSocket.WebSocketMessage :=
  {| UseWebSocket.msg_type := "message"; UseWebSocket.msg_clientId := clientId;
     UseWebSocket.msg_content := content; UseWebSocket.msg_count := None;
     UseWebSocket.msg_userCount := None;
     UseWebSocket.msg_recentMessages := None;
     UseWebSocket.msg_timestamp := timestamp |}.

End ClientExamples.

(** ** The hub as an event loop

    Node delivers the events of the sockets one at a time. The listeners of
    a connection (message, close, error) are attached at the end of the
    accept handler, so an event of a connection is delivered only once its
    accept handler has returned, and no more after its close. An exception
    that leaves a handler is not caught anywhere: the process exits and the
    events that follow are never handled. A socket is a mutable object
    shared by the registry entry and the listeners: the network can change
    its state at any time. *)

Module HubRun.
Import JS Hub.

Inductive HubEvent : Type :=
| Accept (clientId : string) (socket : WebSocket) (connectedAt : string)
         (userAgent : option string)              (* wss 'connection' *)
| Receive (clientId : string) (data : Parsed) (now : string)
                                                  (* ws 'message' *)
| Closed (clientId : string)                      (* ws 'close' *)
| Errored (clientId : string)                     (* ws 'error' *)
| Transport (clientId : string) (socket : WebSocket).
                       (* the socket of the connection changes state *)

(** The hub state and, by client id, the sockets whose listeners are
    attached. *)
Record Loop : Type := {
  hub : State;
  listening : gmap string WebSocket
}.

Definition boot : Loop := {| hub := initial; listening := ∅ |}.

Inductive Fate : Type :=
| Running (l : Loop)
| Exited (h : State).   (* the state when the exception left the handler *)

Definition continue (o : Outcome unit) (attached : gmap string WebSocket)
  : Fate :=
  match o with
  | Normal _ h => Running {| hub := h; listening := attached |}
  | Throw _ h => Exited h
  end.

Definition with_socket (socket : WebSocket) (c : Connection) : Connection :=
  {| ws := socket; connectedAt := connectedAt c; userAgent := userAgent c |}.

Definition set_transport (clientId : string) (socket : WebSocket) (h : State)
  : State :=
  {| connections := alter (with_socket socket) clientId (connections h);
     messages := messages h; wire := wire h; console := console h |}.

(** One event; [None] when it cannot be delivered (no listener attached
    for that connection). *)
Definition handle (ev : HubEvent) (l : Loop) : option Fate :=
  match ev with
  | Accept clientId socket connectedAt userAgent =>
      Some (continue (onConnection clientId socket connectedAt userAgent (hub l))
                     (<[clientId := socket]> (listening l)))
  | Receive clientId data now =>
      match listening l !! clientId with
      | Some socket =>
          Some (continue (onMessage clientId socket data now (hub l))
                         (listening l))
      | None => None
      end
  | Closed clientId =>
      match listening l !! clientId with
      | Some _ => Some (continue (onClose clientId (hub l))
                                 (delete clientId (listening l)))
      | None => None
      end
  | Errored clientId =>
      match listening l !! clientId with
      | Some _ => Some (continue (onError clientId (hub l)) (listening l))
      | None => None
      end
  | Transport clientId socket =>
      match listening l !! clientId with
      | Some _ =>
          Some (Running {| hub := set_transport clientId socket (hub l);
                           listening := <[clientId := socket]> (listening l) |})
      | None => None
      end
  end.

Fixpoint handle_all (evs : list HubEvent) (l : Loop) : option Fate :=
  match evs with
  | [] => Some (Running l)
  | ev :: rest =>
      match handle ev l with
      | Some (Running l') => handle_all rest l'
      | Some (Exited h) => Some (Exited h)
      | None => None
      end
  end.

(** The registry that accepts and disconnects alone would leave, had no
    entry been evicted by a failed send. *)
Definition admitted (ev : HubEvent) (m : gmap string Connection)
  : gmap string Connection :=
  match ev with
  | Accept clientId socket connectedAt userAgent =>
      <[clientId := {| ws := socket; connectedAt := connectedAt;
                       userAgent := userAgent |}]> m
  | Receive _ _ _ => m
  | Closed clientId | Errored clientId => delete clientId m
  | Transport clientId socket => alter (with_socket socket) clientId m
  end.

Definition admitted_all (evs : list HubEvent) (m : gmap string Connection)
  : gmap string Connection :=
  fold_left (fun m ev => admitted ev m) evs m.

(** What every running state of the loop satisfies, [m] being the registry
    that accepts and disconnects alone would have left. *)
Definition loop_inv (l : Loop) (m : gmap string Connection) : Prop :=
  length (messages (hub l)) <= 100
  /\ connections (hub l) ⊆ m
  /\ forall clientId c,
       connections (hub l) !! clientId = Some c ->
       listening l !! clientId = Some (ws c).

(** Runs of the legacy message handler on one connection; [None] when the
    handler raised: server.js catches nothing and the process exits. *)
Fixpoint legacy_receive_all (frames : list Inbound) (h : State)
  : option State :=
  match frames with
  | [] => Some h
  | i :: rest =>
      match Legacy.onMessage (in_clientId i) (in_socket i) (in_data i)
                             (in_now i) h with
      | Normal _ h' => legacy_receive_all rest h'
      | Throw _ _ => None
      end
  end.

(** The record the legacy handler stores: one for every object whose [type]
    is ['message'], whatever its content. *)
Definition legacy_accepted (i : Inbound) : option MessageData :=
  match in_data i with
  | Some (JObject fields) =>
      if is_string (assoc "type" fields) "message"
      then Some {| Hub.msg_type := assoc "type" fields;
                   Hub.msg_content := assoc "content" fields;
                   Hub.msg_clientId := in_clientId i;
                   Hub.msg_timestamp := in_now i |}
      else None
  | _ => None
  end.

End HubRun.

(** ** The HTTP side of the Next.js route (unnamed/part_001, [handler])

    A request is its method. The route keeps one module-level [wss]; the
    model also counts the calls of [new WebSocketServer]. *)

Module Route.
Import Hub.

Record Response : Type := {
  status : nat;
  message : string;
  port : option Z;
  reported_connections : option nat
}.

Record Server : Type := {
  wss : bool;                 (* [wss] is not null *)
  servers_created : nat;
  hub : State
}.

Definition boot : Server :=
  {| wss := false; servers_created := 0; hub := initial |}.

Definition handler (method : string) (s : Server) : Response * Server :=
  if negb (String.eqb method "GET") then
    ({| status := 405; message := "Method not allowed"; port := None;
        reported_connections := None |}, s)
  else
    let s' := if wss s then s
              else {| wss := true; servers_created := S (servers_created s);
                      hub := hub s |} in
    ({| status := 200; message := "WebSocket server is running";
        port := Some 8080%Z;
        reported_connections := Some (size (connections (hub s'))) |}, s').

Fixpoint serve (methods : list string) (s : Server)
  : list Response * Server :=
  match methods with
  | [] => ([], s)
  | method :: rest =>
      let '(r, s1) := handler method s in
      let '(rs, s2) := serve rest s1 in
      (r :: rs, s2)
  end.

End Route.

Module RunExamples.
Import JS Hub HubRun Examples.

(** Two clients arrive, the send to "b" starts failing, "a" says hello,
    "c" arrives, "a" leaves. *)
Definition busy_evening : list HubEvent :=
  [Accept "a" open_socket "2024-05-01T10:00:00.000Z" (Some "Mozilla/5.0");
   Accept "b" open_socket "2024-05-01T10:00:01.000Z" None;
   Transport "b" broken_socket;
   Receive "a" (Some (text_frame "hello")) "2024-05-01T10:00:02.000Z";
   Accept "c" open_socket "2024-05-01T10:00:03.000Z" None;
   Closed "a"].

(** "b" cannot even be welcomed; its close is never handled. *)
Definition bad_accept : list HubEvent :=
  [Accept "a" open_socket "2024-05-01T10:00:00.000Z" None;
   Accept "b" broken_socket "2024-05-01T10:00:01.000Z" None;
   Closed "b"].

(** "b" is open but its send raises, "c" is fine; "a" is leaving. *)
Definition hub_leaving : State :=
  with_connections (<["a" := conn open_socket]>
                    (<["b" := conn broken_socket]>
                     (<["c" := conn open_socket]> ∅))).

Definition ping_frame : JSValue := JObject [("type", JString "ping")].

(** A message frame without any content. *)
Definition bare_frame : JSValue := JObject [("type", JString "message")].

End RunExamples.

(** ** The clients driven by the page and the browser *)

Module ClientRun.
Import Browser.

(** What can happen to a client: the browser delivers an event, or the page
    calls [connect], or it calls [disconnect] (for the hook: React runs the
    cleanup of the effect). *)
Inductive Action : Type :=
| Deliver (ev : Event)
| CallConnect
| CallDisconnect.

Definition perform_class (a : Action) (c : WebSocketClient.Client)
  : option WebSocketClient.Client :=
  match a with
  | Deliver ev => WebSocketClient.step ev c
  | CallConnect => Some (WebSocketClient.connect c)
  | CallDisconnect => Some (WebSocketClient.disconnect c)
  end.

Fixpoint perform_all_class (actions : list Action) (c : WebSocketClient.Client)
  : option WebSocketClient.Client :=
  match actions with
  | [] => Some c
  | a :: rest => match perform_class a c with
                 | Some c' => perform_all_class rest c'
                 | None => None
                 end
  end.

Definition perform_hook (a : Action) (h : UseWebSocket.Hook)
  : option UseWebSocket.Hook :=
  match a with
  | Deliver ev => UseWebSocket.step ev h
  | CallConnect => Some (UseWebSocket.connect h)
  | CallDisconnect => Some (UseWebSocket.cleanup h)
  end.

Fixpoint perform_all_hook (actions : list Action) (h : UseWebSocket.Hook)
  : option UseWebSocket.Hook :=
  match actions with
  | [] => Some h
  | a :: rest => match perform_hook a h with
                 | Some h' => perform_all_hook rest h'
                 | None => None
                 end
  end.

Definition is_Open (a : Action) : bool :=
  match a with
  | Deliver (Open _) => true
  | _ => false
  end.

(** [send] of the class (src/lib/websocket.ts): the verdict it returns and
    the frame handed to the socket, if any. [raises] tells whether the
    [send] of the browser socket raises. *)
Definition send (message : UseWebSocket.WebSocketMessage) (now : string)
    (raises : bool) (c : WebSocketClient.Client)
  : bool * option UseWebSocket.WebSocketMessage :=
  if negb (WebSocketClient.is_open c) then (false, None)
  else if raises then (false, None)
  else (true,
        Some {| UseWebSocket.msg_type := UseWebSocket.msg_type message;
                UseWebSocket.msg_clientId := UseWebSocket.msg_clientId message;
                UseWebSocket.msg_content := UseWebSocket.msg_content message;
                UseWebSocket.msg_count := UseWebSocket.msg_count message;
                UseWebSocket.msg_userCount := UseWebSocket.msg_userCount message;
                UseWebSocket.msg_recentMessages :=
                  UseWebSocket.msg_recentMessages message;
                UseWebSocket.msg_timestamp := Some now |}).

Definition isConnected (c : WebSocketClient.Client) : bool :=
  WebSocketClient.is_open c.

(** A client of the class whose first socket is open. *)
Definition connected_client : WebSocketClient.Client :=
  default (WebSocketClient.new true)
    (WebSocketClient.run [Open 0]
       (WebSocketClient.connect (WebSocketClient.new true))).

(** The delays each client can arm. *)
Definition class_delays : list Q := [3000; 6000; 12000; 24000; 48000]%Q.
Definition hook_delays : list Q := [1500; 3000; 6000; 12000; 24000]%Q.

(** At most one timer is pending, and it is the one the client remembers. *)
Definition one_timer (remembered : option nat) (e : Env) : Prop :=
  timers e = []
  \/ exists t d, timers e = [(t, d)] /\ remembered = Some t.

(** The class: the counter stays within 0..5, a pending timer implies that
    it is below 5, and only the five delays are ever armed. *)
Definition class_inv (c : WebSocketClient.Client) : Prop :=
  (0 <= WebSocketClient.reconnectAttempts c <= 5)%Z
  /\ one_timer (WebSocketClient.reconnectTimer c) (WebSocketClient.env c)
  /\ (timers (WebSocketClient.env c) <> [] ->
      (WebSocketClient.reconnectAttempts c < 5)%Z)
  /\ Forall (fun d => In d class_delays) (scheduled (WebSocketClient.env c)).

(** The hook: the counter is never negative and only its five delays are
    ever armed. *)
Definition hook_inv (h : UseWebSocket.Hook) : Prop :=
  (0 <= UseWebSocket.reconnectAttemptsRef h)%Z
  /\ one_timer (UseWebSocket.reconnectTimerRef h) (UseWebSocket.env h)
  /\ Forall (fun d => In d hook_delays) (scheduled (UseWebSocket.env h)).

End ClientRun.

(** ** The handler tables of the class (src/lib/websocket.ts)

    [messageHandlers] is a [Map] from envelope type to handler and
    [connectionHandlers] a [Set] of handlers. A handler is known by its
    identity (a number here); the calls made are what is observed. *)

Module Handlers.

Record Tables : Type := {
  messageHandlers : gmap string nat;
  connectionHandlers : gset nat
}.

Definition empty : Tables :=
  {| messageHandlers := ∅; connectionHandlers := ∅ |}.

Definition onMessage (type : string) (handler : nat) (t : Tables) : Tables :=
  {| messageHandlers := <[type := handler]> (messageHandlers t);
     connectionHandlers := connectionHandlers t |}.

Definition onConnectionChange (handler : nat) (t : Tables) : Tables :=
  {| messageHandlers := messageHandlers t;
     connectionHandlers := {[handler]} ∪ connectionHandlers t |}.

Definition removeConnectionHandler (handler : nat) (t : Tables) : Tables :=
  {| messageHandlers := messageHandlers t;
     connectionHandlers := connectionHandlers t ∖ {[handler]} |}.

(** [ws.onmessage]: the calls made for an inbound frame ([None]: the text
    is not JSON, or is [null], which the [catch] only logs). *)
Definition dispatch (data : option UseWebSocket.WebSocketMessage) (t : Tables)
  : list (nat * UseWebSocket.WebSocketMessage) :=
  match data with
  | Some message =>
      match messageHandlers t !! UseWebSocket.msg_type message with
      | Some handler => [(handler, message)]
      | None => []
      end
  | None => []
  end.

(** [notifyConnectionHandlers]: the handlers called, each with [connected]. *)
Definition notifyConnectionHandlers (connected : bool) (t : Tables)
  : list (nat * bool) :=
  List.map (fun handler => (handler, connected))
           (elements (connectionHandlers t)).

Inductive Registration : Type :=
| OnMessage (type : string) (handler : nat)
| OnConnectionChange (handler : nat)
| RemoveConnectionHandler (handler : nat).

Definition register (r : Registration) (t : Tables) : Tables :=
  match r with
  | OnMessage type handler => onMessage type handler t
  | OnConnectionChange handler => onConnectionChange handler t
  | RemoveConnectionHandler handler => removeConnectionHandler handler t
  end.

Definition register_all (rs : list Registration) (t : Tables) : Tables :=
  fold_left (fun t r => register r t) rs t.

(** The handler registered last for [type], if any. *)
Definition last_handler (type : string) (rs : list Registration)
  : option nat :=
  fold_left (fun acc r =>
               match r with
               | OnMessage type' handler =>
                   if String.eqb type' type then Some handler else acc
               | _ => acc
               end) rs None.

(** Whether the last thing said about [handler] was a subscription. *)
Definition subscribed (handler : nat) (rs : list Registration) : bool :=
  fold_left (fun acc r =>
               match r with
               | OnConnectionChange k =>
                   if Nat.eqb k handler then true else acc
               | RemoveConnectionHandler k =>
                   if Nat.eqb k handler then false else acc
               | _ => acc
               end) rs false.

End Handlers.

(** ** From one hook to another through the hub *)

Module Wire.
Import JS.

(** [sendMessage] of the hook: the object handed to [JSON.stringify] and
    sent, if the socket is open and its [send] does not raise ([raises]).
    The hub parses the text back to the same object. *)
Definition sendMessage (content now : string) (raises : bool)
    (h : UseWebSocket.Hook) : option JSValue :=
  if negb (UseWebSocket.is_open h) then None
  else if raises then None
  else Some (JObject [("type", JString "message");
                      ("content", JString content);
                      ("timestamp", JString now)]).

(** An optional string property: a string, absent, or something the type
    [WebSocketMessage] does not allow. *)
Definition text_prop (v : JSValue) : option (option string) :=
  match v with
  | JUndefined => Some None
  | JString s => Some (Some s)
  | _ => None
  end.

Definition absent (v : JSValue) : bool :=
  match v with
  | JUndefined => true
  | _ => false
  end.

(** A relayed object read at the type [WebSocketMessage]; [None] when one of
    its properties is outside that type. *)
Definition read_object (fields : list (string * JSValue))
  : option UseWebSocket.WebSocketMessage :=
  match assoc "type" fields,
        text_prop (assoc "clientId" fields),
        text_prop (assoc "content" fields),
        text_prop (assoc "timestamp" fields) with
  | JString type, Some clientId, Some content, Some timestamp =>
      if absent (assoc "count" fields) && absent (assoc "userCount" fields)
         && absent (assoc "recentMessages" fields)
      then Some {| UseWebSocket.msg_type := type;
                   UseWebSocket.msg_clientId := clientId;
                   UseWebSocket.msg_content := content;
                   UseWebSocket.msg_count := None;
                   UseWebSocket.msg_userCount := None;
                   UseWebSocket.msg_recentMessages := None;
                   UseWebSocket.msg_timestamp := timestamp |}
      else None
  | _, _, _, _ => None
  end.

Definition read_entry (m : Hub.MessageData) : option UseWebSocket.MessageData :=
  match Hub.msg_content m with
  | JString content =>
      Some {| UseWebSocket.content := content;
              UseWebSocket.clientId := Hub.msg_clientId m;
              UseWebSocket.timestamp := Hub.msg_timestamp m |}
  | _ => None
  end.

Fixpoint read_entries (ms : list Hub.MessageData)
  : option (list UseWebSocket.MessageData) :=
  match ms with
  | [] => Some []
  | m :: rest =>
      match read_entry m, read_entries rest with
      | Some e, Some es => Some (e :: es)
      | _, _ => None
      end
  end.

(** What [JSON.parse(event.data)] gives the hook for a frame the hub sent. *)
Definition read (frame : Hub.Frame) : option UseWebSocket.WebSocketMessage :=
  match frame with
  | Hub.Message m =>
      read_object [("type", Hub.msg_type m); ("content", Hub.msg_content m);
                   ("clientId", JString (Hub.msg_clientId m));
                   ("timestamp", JString (Hub.msg_timestamp m))]
  | Hub.Echo (JObject fields) => read_object fields
  | Hub.Echo _ => None
  | Hub.UserCount count =>
      Some {| UseWebSocket.msg_type := "userCount";
              UseWebSocket.msg_clientId := None;
              UseWebSocket.msg_content := None;
              UseWebSocket.msg_count := Some (Z.of_nat count);
              UseWebSocket.msg_userCount := None;
              UseWebSocket.msg_recentMessages := None;
              UseWebSocket.msg_timestamp := None |}
  | Hub.Pong =>
      Some {| UseWebSocket.msg_type := "pong";
              UseWebSocket.msg_clientId := None;
              UseWebSocket.msg_content := None;
              UseWebSocket.msg_count := None;
              UseWebSocket.msg_userCount := None;
              UseWebSocket.msg_recentMessages := None;
              UseWebSocket.msg_timestamp := None |}
  | Hub.Connected clientId userCount recentMessages =>
      match read_entries recentMessages with
      | Some recent =>
          Some {| UseWebSocket.msg_type := "connected";
                  UseWebSocket.msg_clientId := Some clientId;
                  UseWebSocket.msg_content := None;
                  UseWebSocket.msg_count := None;
                  UseWebSocket.msg_userCount := Some (Z.of_nat userCount);
                  UseWebSocket.msg_recentMessages := Some recent;
                  UseWebSocket.msg_timestamp := None |}
      | None => None
      end
  end.

(** The user count the hook shows after a run of frames: the count of the
    latest envelope that carried one. *)
Definition counted (data : option UseWebSocket.WebSocketMessage) (n : Z) : Z :=
  match data with
  | Some message =>
      if String.eqb (UseWebSocket.msg_type message) "connected"
      then default n (UseWebSocket.msg_userCount message)
      else if String.eqb (UseWebSocket.msg_type message) "userCount"
      then default n (UseWebSocket.msg_count message)
      else n
  | None => n
  end.

(** A hook whose first socket is open. *)
Definition connected_hook : UseWebSocket.Hook :=
  default (UseWebSocket.initial true)
    (UseWebSocket.run [Browser.Open 0]
       (UseWebSocket.connect (UseWebSocket.initial true))).

End Wire.

(** ** Properties of the hub *)

Import JS Hub HubSpec Examples.

Lemma broadcast_entry_spec data ex (entry : string * Connection) h :
  exists h',
    broadcast_entry data ex entry h = Normal tt h'
    /\ messages h' = messages h
    /\ wire h' = wire h ++ calls data ex [entry]
    /\ connections h' =
       if targeted ex entry && sendThrows (ws (snd entry))
       then delete (fst entry) (connections h) else connections h.
Proof.
  destruct entry as [id0 c0].
  unfold broadcast_entry, calls, targeted, call. cbn [List.filter fst snd].
  destruct (negb (String.eqb id0 ex) && (readyState (ws c0) =? 1)%Z).
  - unfold try_catch, ws_send, bind, console_error, connections_delete.
    cbn [List.map fst snd andb].
    destruct (sendThrows (ws c0)); eexists; (split; [reflexivity|]); cbn; auto.
  - exists h. cbn. rewrite app_nil_r. auto.
Qed.

Lemma calls_cons data ex entry (l : list (string * Connection)) :
  calls data ex (entry :: l) = calls data ex [entry] ++ calls data ex l.
Proof.
  unfold calls. cbn [List.filter].
  destruct (targeted ex entry); reflexivity.
Qed.

Lemma for_each_broadcast data ex (l : list (string * Connection)) :
  forall h, exists h',
    for_each l (broadcast_entry data ex) h = Normal tt h'
    /\ messages h' = messages h
    /\ wire h' = wire h ++ calls data ex l
    /\ forall id, connections h' !! id =
                  if evicted ex id l then None else connections h !! id.
Proof.
  induction l as [|entry l IH]; intros h.
  - exists h. cbn. rewrite app_nil_r. auto.
  - destruct (broadcast_entry_spec data ex entry h) as (h1 & E1 & Hm1 & Hw1 & Hc1).
    destruct (IH h1) as (h' & E & Hm & Hw & Hc).
    exists h'. cbn [for_each]. unfold bind. rewrite E1, E.
    split; [reflexivity|]. split; [congruence|]. split.
    + rewrite Hw, Hw1, (calls_cons data ex entry l). symmetry. apply List.app_assoc.
    + intros id. rewrite Hc, Hc1. unfold evicted. cbn [existsb].
      fold (evicted ex id l).
      destruct (String.eqb_spec (fst entry) id) as [->|Hne]; cbn [andb orb].
      * destruct (targeted ex entry && sendThrows (ws (snd entry)));
          cbn [orb]; [|reflexivity].
        destruct (evicted ex id l); [reflexivity|]. apply lookup_delete_eq.
      * destruct (evicted ex id l); [reflexivity|].
        destruct (targeted ex entry && sendThrows (ws (snd entry)));
          [by apply lookup_delete_ne | reflexivity].
Qed.

Lemma evicted_map_to_list ex id (m : gmap string Connection) :
  evicted ex id (map_to_list m) =
  match m !! id with
  | Some c => targeted ex (id, c) && sendThrows (ws c)
  | None => false
  end.
Proof.
  apply eq_true_iff_eq. unfold evicted. rewrite existsb_exists. split.
  - intros ([id' c] & Hin & Hb). cbn [fst snd] in Hb.
    apply list_elem_of_In, elem_of_map_to_list in Hin.
    apply andb_prop in Hb as [Hb Hs]. apply andb_prop in Hb as [He Ht].
    apply String.eqb_eq in He. subst id'. rewrite Hin.
    unfold targeted in *. cbn [fst snd] in *. by rewrite Ht, Hs.
  - destruct (m !! id) as [c|] eqn:Hl; [|discriminate]. intros Hb.
    exists (id, c). split.
    + by apply list_elem_of_In, elem_of_map_to_list.
    + cbn [fst snd]. rewrite String.eqb_refl. exact Hb.
Qed.

Lemma in_calls data ex (l : list (string * Connection)) w :
  In w (calls data ex l) <->
  exists entry, In entry l /\ targeted ex entry = true /\ w = call data entry.
Proof.
  unfold calls. rewrite in_map_iff. split.
  - intros (entry & <- & Hin). apply filter_In in Hin as [Hin Ht]. eauto.
  - intros (entry & Hin & Ht & ->). exists entry. split; [done|].
    apply filter_In. auto.
Qed.

Lemma targeted_iff ex id c :
  targeted ex (id, c) = true <-> id <> ex /\ readyState (ws c) = 1%Z.
Proof.
  unfold targeted. cbn [fst snd]. rewrite andb_true_iff, negb_true_iff.
  rewrite Z.eqb_eq. destruct (String.eqb_spec id ex); split;
    intros [? ?]; split; congruence.
Qed.

(** What one call of [broadcast] does: it returns, leaves the history alone,
    calls [send] once per open entry other than the excluded one, and
    removes the entries whose send raised. *)
Lemma broadcast_spec data ex h :
  exists h',
    broadcast data ex h = Normal tt h'
    /\ messages h' = messages h
    /\ wire h' = wire h ++ calls data ex (map_to_list (connections h))
    /\ forall id, connections h' !! id =
                  match connections h !! id with
                  | Some c => if targeted ex (id, c) && sendThrows (ws c)
                              then None else Some c
                  | None => None
                  end.
Proof.
  unfold broadcast.
  destruct (for_each_broadcast data ex (map_to_list (connections h)) h)
    as (h' & E & Hm & Hw & Hc).
  exists h'. repeat split; try done.
  intros id. rewrite Hc, evicted_map_to_list.
  destruct (connections h !! id); reflexivity.
Qed.

Lemma broadcast_returns data ex h :
  exists h', broadcast data ex h = Normal tt h'.
Proof. destruct (broadcast_spec data ex h) as (h' & E & _). eauto. Qed.

(** *** Fan-out *)

(** C2, as stated, fails: with "b" registered but closing, a broadcast
    that excludes "a" calls [send] on nobody. *)
Lemma broadcast_skips_closing_entry :
  connections hub_closing !! "b" = Some (conn closing_socket)
  /\ "b" <> "a"
  /\ wire (state_of (broadcast (UserCount 2) "a" hub_closing)) = []
  /\ ~ send_called "b" (UserCount 2)
        (wire (state_of (broadcast (UserCount 2) "a" hub_closing))).
Proof.
  split; [vm_compute; reflexivity|]. split; [discriminate|].
  split; [vm_compute; reflexivity|]. intros [H|H]; vm_compute in H; exact H.
Qed.

(** The wire events one [broadcast] adds: none for the excluded identity,
    all with the envelope, one delivered to each open entry whose send
    works. *)
Lemma broadcast_wire data ex h :
  exists new,
    wire (state_of (broadcast data ex h)) = wire h ++ new
    /\ (forall w, In w new -> recipient w <> ex /\ payload w = data)
    /\ (forall id c,
          connections h !! id = Some c -> id <> ex ->
          readyState (ws c) = 1%Z -> sendThrows (ws c) = false ->
          In (Sent id data) new).
Proof.
  destruct (broadcast_spec data ex h) as (h' & E & _ & Hw & _).
  exists (calls data ex (map_to_list (connections h))).
  rewrite E. cbn [state_of]. split; [exact Hw|]. split.
  - intros w (entry & _ & Ht & ->)%in_calls. destruct entry as [id c].
    apply targeted_iff in Ht as [Hne _].
    unfold call. cbn [fst snd]. by destruct (sendThrows (ws c)).
  - intros id c Hl Hne Hr Hs. apply in_calls. exists (id, c).
    split; [|split].
    + by apply list_elem_of_In, elem_of_map_to_list.
    + by apply targeted_iff.
    + unfold call. cbn [fst snd]. by rewrite Hs.
Qed.

(** C2, amended: [broadcast] never calls [send] for the excluded identity,
    and calls it for exactly the other identities registered when the call
    starts whose socket is open ([readyState] 1); the envelope is delivered
    to those of them whose send returns. *)
Theorem broadcast_reaches_open_others data ex h :
  exists new,
    wire (state_of (broadcast data ex h)) = wire h ++ new
    /\ (forall w, In w new -> recipient w <> ex /\ payload w = data)
    /\ (forall id, send_called id data new <->
                   exists c, connections h !! id = Some c
                             /\ id <> ex /\ readyState (ws c) = 1%Z)
    /\ (forall id, In (Sent id data) new <->
                   exists c, connections h !! id = Some c
                             /\ id <> ex /\ readyState (ws c) = 1%Z
                             /\ sendThrows (ws c) = false).
Proof.
  destruct (broadcast_spec data ex h) as (h' & E & _ & Hw & _).
  exists (calls data ex (map_to_list (connections h))).
  rewrite E. cbn [state_of]. split; [exact Hw|]. split; [|split].
  - intros w (entry & _ & Ht & ->)%in_calls. destruct entry as [id c].
    apply targeted_iff in Ht as [Hne _].
    unfold call. cbn [fst snd]. by destruct (sendThrows (ws c)).
  - intros id. unfold send_called. rewrite !in_calls. split.
    + intros [([id' c] & Hin & Ht & Hw')|([id' c] & Hin & Ht & Hw')];
        unfold call in Hw'; cbn [fst snd] in Hw';
        destruct (sendThrows (ws c)); inversion Hw'; subst id';
        apply list_elem_of_In, elem_of_map_to_list in Hin;
        apply targeted_iff in Ht as [? ?]; eauto.
    + intros (c & Hl & Hne & Hr).
      assert (Hin : In (id, c) (map_to_list (connections h)))
        by by apply list_elem_of_In, elem_of_map_to_list.
      assert (Ht : targeted ex (id, c) = true) by by apply targeted_iff.
      destruct (sendThrows (ws c)) eqn:Hs; [right|left];
        exists (id, c); unfold call; cbn [fst snd]; rewrite Hs; auto.
  - intros id. rewrite in_calls. split.
    + intros ([id' c] & Hin & Ht & Hw').
      unfold call in Hw'; cbn [fst snd] in Hw'.
      destruct (sendThrows (ws c)) eqn:Hs; inversion Hw'; subst id'.
      apply list_elem_of_In, elem_of_map_to_list in Hin.
      apply targeted_iff in Ht as [? ?]. eauto.
    + intros (c & Hl & Hne & Hr & Hs). exists (id, c). split; [|split].
      * by apply list_elem_of_In, elem_of_map_to_list.
      * by apply targeted_iff.
      * unfold call. cbn [fst snd]. by rewrite Hs.
Qed.

(** C6: a send that raises during a broadcast is caught where it happens.
    The broadcast returns normally, the entry whose send raised is gone from
    the registry, and an open entry whose send works is still registered and
    has received the envelope. *)
Theorem broadcast_failure_is_local data ex h bad cb good cg :
  connections h !! bad = Some cb ->
  bad <> ex -> readyState (ws cb) = 1%Z -> sendThrows (ws cb) = true ->
  connections h !! good = Some cg ->
  good <> ex -> readyState (ws cg) = 1%Z -> sendThrows (ws cg) = false ->
  exists h' new,
    broadcast data ex h = Normal tt h'
    /\ connections h' !! bad = None
    /\ connections h' !! good = Some cg
    /\ wire h' = wire h ++ new
    /\ In (SendFailed bad data) new
    /\ In (Sent good data) new.
Proof.
  intros Hb Hbne Hbr Hbs Hg Hgne Hgr Hgs.
  destruct (broadcast_spec data ex h) as (h' & E & _ & Hw & Hc).
  exists h', (calls data ex (map_to_list (connections h))).
  assert (Htb : targeted ex (bad, cb) = true) by by apply targeted_iff.
  assert (Htg : targeted ex (good, cg) = true) by by apply targeted_iff.
  split; [exact E|]. split; [|split; [|split; [exact Hw|split]]].
  - by rewrite Hc, Hb, Htb, Hbs.
  - by rewrite Hc, Hg, Htg, Hgs.
  - apply in_calls. exists (bad, cb). split; [|split; [done|]].
    + by apply list_elem_of_In, elem_of_map_to_list.
    + unfold call. cbn [fst snd]. by rewrite Hbs.
  - apply in_calls. exists (good, cg). split; [|split; [done|]].
    + by apply list_elem_of_In, elem_of_map_to_list.
    + unfold call. cbn [fst snd]. by rewrite Hgs.
Qed.

Lemma broadcast_failure_is_local_witness :
  exists h' new,
    broadcast (UserCount 3) "a" hub_broken = Normal tt h'
    /\ connections h' !! "b" = None
    /\ connections h' !! "c" = Some (conn open_socket)
    /\ wire h' = wire hub_broken ++ new
    /\ In (SendFailed "b" (UserCount 3)) new
    /\ In (Sent "c" (UserCount 3)) new.
Proof.
  apply (broadcast_failure_is_local (UserCount 3) "a" hub_broken
           "b" (conn broken_socket) "c" (conn open_socket));
    solve [vm_compute; reflexivity | discriminate].
Defined.

(** *** The history buffer *)

Lemma tail_drop {A} (k : nat) (l : list A) : tail (drop k l) = drop (S k) l.
Proof.
  revert l. induction k as [|k IH]; intros [|x l]; cbn; auto.
Qed.

Lemma push_shift_slice_last m (pre : list MessageData) :
  push_shift m (slice_last 100 pre) = slice_last 100 (pre ++ [m]).
Proof.
  unfold push_shift, slice_last, MAX_MESSAGES.
  rewrite !length_app, length_drop. cbn [length].
  destruct (Nat.ltb_spec 100 (length pre - (length pre - 100) + 1)) as [Hlt|Hge].
  - assert (Hl : 100 <= length pre) by lia.
    rewrite <- drop_app_le by lia. rewrite tail_drop. f_equal. lia.
  - assert (Hl : length pre < 100) by lia.
    replace (length pre - 100) with 0 by lia.
    replace (length pre + 1 - 100) with 0 by lia. by rewrite !drop_0.
Qed.

Lemma length_slice_last {A} (n : nat) (l : list A) :
  length (slice_last n l) = Nat.min (length l) n.
Proof. unfold slice_last. rewrite length_drop. lia. Qed.

(** The standalone message handler never raises; what it does to the
    history is decided by [accepted]. *)
Lemma onMessage_history clientId socket data now h :
  exists h',
    onMessage clientId socket data now h = Normal tt h'
    /\ messages h' =
       match accepted {| in_clientId := clientId; in_socket := socket;
                         in_data := data; in_now := now |} with
       | Some m => push_shift m (messages h)
       | None => messages h
       end.
Proof.
  unfold onMessage, accepted, try_catch, bind, JSON_parse, lift, prop.
  cbn [in_data in_clientId in_now].
  destruct data as [v|]; [|eexists; split; reflexivity].
  destruct v; try (eexists; split; reflexivity).
  cbn [ret throw].
  destruct (is_string (assoc "type" fields) "message"
            && truthy (assoc "content" fields)).
  - unfold messages_append.
    match goal with |- context [broadcast ?d ?e ?s] =>
      destruct (broadcast_spec d e s) as (h' & E & Hm & _); rewrite E end.
    exists h'. split; [reflexivity|]. exact Hm.
  - destruct (is_string (assoc "type" fields) "ping");
      [|eexists; split; reflexivity].
    unfold ws_send. destruct (sendThrows socket); eexists; split; reflexivity.
Qed.

Lemma receive_history i h :
  messages (receive i h) =
  match accepted i with
  | Some m => push_shift m (messages h)
  | None => messages h
  end.
Proof.
  destruct i as [clientId socket data now]. unfold receive.
  cbn [in_clientId in_socket in_data in_now].
  destruct (onMessage_history clientId socket data now h) as (h' & E & Hm).
  rewrite E. exact Hm.
Qed.

Lemma appended_cons i frames :
  appended (i :: frames) =
  match accepted i with
  | Some m => m :: appended frames
  | None => appended frames
  end.
Proof. reflexivity. Qed.

Lemma receive_all_history frames :
  forall h pre,
    messages h = slice_last 100 pre ->
    messages (receive_all frames h) = slice_last 100 (pre ++ appended frames).
Proof.
  induction frames as [|i frames IH]; intros h pre Hh.
  - cbn. by rewrite app_nil_r.
  - cbn [receive_all fold_left]. fold (receive_all frames (receive i h)).
    rewrite appended_cons.
    pose proof (receive_history i h) as Hr.
    destruct (accepted i) as [m|].
    + replace (pre ++ m :: appended frames)
        with ((pre ++ [m]) ++ appended frames) by by rewrite <- app_assoc.
      apply IH. rewrite Hr, Hh. apply push_shift_slice_last.
    + apply IH. by rewrite Hr.
Qed.

(** C1: starting from an empty history, after any sequence of inbound
    frames the buffer is the last 100 of the records appended so far, in
    the order they were appended; its length is min(n, 100), so never more
    than 100. *)
Theorem history_holds_last_100 frames h :
  messages h = [] ->
  messages (receive_all frames h) = slice_last 100 (appended frames)
  /\ length (messages (receive_all frames h))
     = Nat.min (length (appended frames)) 100
  /\ length (messages (receive_all frames h)) <= MAX_MESSAGES.
Proof.
  intros Hh.
  assert (E : messages (receive_all frames h) = slice_last 100 (appended frames)).
  { apply (receive_all_history frames h []). by rewrite Hh. }
  rewrite E, length_slice_last. unfold MAX_MESSAGES. repeat split; lia.
Qed.

Lemma history_holds_last_100_witness :
  let frames := [inbound_from_a (Some (text_frame "one")) "2024-05-01T10:00:01.000Z";
                 inbound_from_a None "2024-05-01T10:00:02.000Z";
                 inbound_from_a (Some (text_frame "two")) "2024-05-01T10:00:03.000Z"] in
  messages (receive_all frames hub_pair) = slice_last 100 (appended frames)
  /\ length (messages (receive_all frames hub_pair))
     = Nat.min (length (appended frames)) 100
  /\ length (messages (receive_all frames hub_pair)) <= MAX_MESSAGES.
Proof. apply (history_holds_last_100 _ hub_pair). reflexivity. Defined.

(** With 101 accepted frames the first one is gone and the other 100 are
    kept in order. *)
Example history_evicts_oldest :
  let frame k := inbound_from_a (Some (text_frame "x")) k in
  let frames := frame "t0" :: repeat (frame "t1") 99 ++ [frame "t2"] in
  List.map Hub.msg_timestamp (messages (receive_all frames initial))
  = repeat "t1" 99 ++ ["t2"].
Proof. vm_compute. reflexivity. Qed.

(** *** The message handler, case by case *)

Lemma onMessage_object clientId socket fields now h :
  onMessage clientId socket (Some (JObject fields)) now h =
  if is_string (assoc "type" fields) "message"
     && truthy (assoc "content" fields)
  then
    let m := stamped (assoc "type" fields) (assoc "content" fields)
                     clientId now in
    broadcast (Message m) clientId (set_messages (push_shift m (messages h)) h)
  else if is_string (assoc "type" fields) "ping"
  then try_catch (ws_send clientId socket Pong) console_error h
  else Normal tt h.
Proof.
  unfold onMessage, try_catch, bind, JSON_parse, lift, prop. cbn [ret].
  destruct (is_string (assoc "type" fields) "message"
            && truthy (assoc "content" fields)).
  - unfold messages_append, stamped, set_messages. cbn zeta.
    match goal with |- context [broadcast ?d ?e ?s] =>
      destruct (broadcast_returns d e s) as (h' & E); rewrite E end.
    reflexivity.
  - destruct (is_string (assoc "type" fields) "ping"); reflexivity.
Qed.

Lemma onMessage_not_object clientId socket data now h :
  (forall fields, data <> Some (JObject fields)) ->
  onMessage clientId socket data now h
  = Normal tt {| connections := connections h; messages := messages h;
                 wire := wire h; console := console h ++ complaint data |}.
Proof.
  intros Hd. destruct h as [cs ms w co].
  unfold onMessage, try_catch, bind, JSON_parse, lift, prop, console_error.
  destruct data as [v|]; [|reflexivity].
  destruct v; cbn; rewrite ?app_nil_r; try reflexivity.
  by destruct (Hd fields).
Qed.

(** The Next.js route handles every frame as the standalone server does. *)
Lemma NextApi_onMessage_eq clientId socket data now h :
  NextApi.onMessage clientId socket data now h
  = onMessage clientId socket data now h.
Proof.
  unfold NextApi.onMessage, onMessage, try_catch, bind, JSON_parse, lift, prop.
  destruct data as [v|]; [|reflexivity].
  destruct v; try reflexivity. cbn [ret].
  destruct (assoc "type" fields) as [| |b|q|s|items|fs] eqn:Ht;
    try reflexivity.
  cbn [is_string].
  destruct (String.eqb_spec s "message") as [->|Hne]; reflexivity.
Qed.

(** *** Presence count *)

(** C3, as stated, fails on an accept whose welcome cannot be sent. The
    welcome [ws.send] is outside any [try]: when it raises, the exception
    leaves the handler before [broadcast] is reached. The newcomer "c" is
    registered, the registry holds 3 entries, and the open connections "a"
    and "b" are sent no [userCount]. *)
Lemma welcome_failure_skips_presence_update :
  exists h',
    onConnection "c" broken_socket "2024-05-01T10:00:05.000Z" None hub_pair
    = Throw SendError h'
    /\ size (connections h') = 3
    /\ is_Some (connections h' !! "c")
    /\ Hub.readyState (ws (conn open_socket)) = 1%Z
    /\ connections h' !! "a" = Some (conn open_socket)
    /\ connections h' !! "b" = Some (conn open_socket)
    /\ wire h' = [SendFailed "c" (Connected "c" 3 [])].
Proof.
  eexists. split; [vm_compute; reflexivity|].
  vm_compute. repeat split; eauto.
Qed.

Lemma broadcast_presence clientId h :
  exists new,
    wire (state_of (broadcast (UserCount (size (connections h))) clientId h))
    = wire h ++ new
    /\ presence_update clientId (connections h) new.
Proof.
  destruct (broadcast_wire (UserCount (size (connections h))) clientId h)
    as (new & Hw & Hp & Hs).
  exists new. split; [exact Hw|]. split; [exact Hp|]. exact Hs.
Qed.

(** C3: the count carried by the [userCount] envelope is the size of the
    registry in the state in which the broadcast starts. On close and on
    error that state is the one after the removal; on accept it is the one
    after the registration and the welcome, and the broadcast is reached
    when the welcome send returns. Every recipient reads that size. The hub
    state has no counter of its own: the count is read off the registry each
    time. *)
Theorem userCount_is_registry_size h clientId socket connectedAt userAgent :
  let removed := delete clientId (connections h) in
  let registered :=
    <[clientId := {| ws := socket; connectedAt := connectedAt;
                     userAgent := userAgent |}]> (connections h) in
  let welcome :=
    Connected clientId (size registered) (slice_last 10 (messages h)) in
  (exists h1 new,
      connections h1 = removed
      /\ onClose clientId h
         = broadcast (UserCount (size (connections h1))) clientId h1
      /\ wire (state_of (onClose clientId h)) = wire h ++ new
      /\ presence_update clientId removed new)
  /\ (exists h1 new,
      connections h1 = removed
      /\ onError clientId h
         = broadcast (UserCount (size (connections h1))) clientId h1
      /\ wire (state_of (onError clientId h)) = wire h ++ new
      /\ presence_update clientId removed new)
  /\ (exists h1 new,
      connections h1 = registered
      /\ onConnection clientId socket connectedAt userAgent h
         = (if sendThrows socket
            then Throw SendError (log_wire (SendFailed clientId welcome) h1)
            else broadcast (UserCount (size (connections h1))) clientId
                           (log_wire (Sent clientId welcome) h1))
      /\ (sendThrows socket = false ->
          wire (state_of (onConnection clientId socket connectedAt userAgent h))
          = wire h ++ Sent clientId welcome :: new
          /\ presence_update clientId registered new)).
Proof.
  cbn zeta. split; [|split].
  - destruct (broadcast_presence clientId
                (set_connections (delete clientId (connections h)) h))
      as (new & Hw & Hp).
    exists (set_connections (delete clientId (connections h)) h), new.
    split; [reflexivity|]. split; [reflexivity|]. split; [exact Hw|exact Hp].
  - destruct (broadcast_presence clientId
                {| connections := delete clientId (connections h);
                   messages := messages h; wire := wire h;
                   console := console h ++ [TransportError] |})
      as (new & Hw & Hp).
    eexists _, new.
    split; [|split; [reflexivity|split; [exact Hw|exact Hp]]]. reflexivity.
  - match goal with |- context [<[clientId := ?c]> _] => set (conn0 := c) end.
    set (h1 := set_connections (<[clientId := conn0]> (connections h)) h).
    set (welcome := Connected clientId (size (<[clientId := conn0]> (connections h)))
                              (slice_last 10 (messages h))).
    destruct (broadcast_presence clientId (log_wire (Sent clientId welcome) h1))
      as (new & Hw & Hp).
    exists h1, new. split; [reflexivity|].
    assert (E : onConnection clientId socket connectedAt userAgent h
                = if sendThrows socket
                  then Throw SendError (log_wire (SendFailed clientId welcome) h1)
                  else broadcast (UserCount (size (connections h1))) clientId
                                 (log_wire (Sent clientId welcome) h1)).
    { unfold onConnection, bind, connections_set, connections_size,
        messages_recent, ws_send. cbn.
      destruct (sendThrows socket); reflexivity. }
    split; [exact E|]. intros Hs. rewrite E, Hs.
    split; [|exact Hp].
    cbn [log_wire connections] in Hw. rewrite Hw. cbn [log_wire wire h1 set_connections].
    by rewrite <- app_assoc.
Qed.

Lemma userCount_is_registry_size_witness :
  exists new,
    wire (state_of (onConnection "c" open_socket "2024-05-01T10:00:05.000Z"
                                 None hub_pair))
    = wire hub_pair
      ++ Sent "c" (Connected "c" 3 []) :: new
    /\ In (Sent "a" (UserCount 3)) new
    /\ In (Sent "b" (UserCount 3)) new.
Proof.
  destruct (userCount_is_registry_size hub_pair "c" open_socket
              "2024-05-01T10:00:05.000Z" None)
    as (_ & _ & (h1 & new & _ & _ & Hc)).
  destruct (Hc eq_refl) as (Hw & _ & Hs).
  exists new. split; [exact Hw|]. split.
  - apply (Hs "a" (conn open_socket)); solve [vm_compute; reflexivity | discriminate].
  - apply (Hs "b" (conn open_socket)); solve [vm_compute; reflexivity | discriminate].
Defined.

(** *** Frames that are not chat messages *)

(** C7, as stated, fails on the standalone server: a [message] frame whose
    content is the number 42 violates the envelope schema, yet it is stored
    and relayed to "b". *)
Lemma number_content_is_relayed :
  let h' := state_of (onMessage "a" open_socket (Some number_frame)
                                "2024-05-01T10:00:01.000Z" hub_pair) in
  let m := stamped (JString "message") (JNumber 42) "a"
                   "2024-05-01T10:00:01.000Z" in
  messages h' = [m] /\ wire h' = [Sent "b" (Message m)].
Proof. vm_compute. split; reflexivity. Qed.

(** C7, amended (standalone server and Next.js route): handling a frame
    never throws out of the message handler and never removes the sender
    from the registry; a frame that is not JSON or is [null] is logged with
    [console.error], and these, like every value whose [type] is neither
    ['message'] with truthy content nor ['ping'], leave the registry, the
    history and the wire as they were. *)
Theorem onMessage_never_throws clientId socket data now h :
  exists h',
    onMessage clientId socket data now h = Normal tt h'
    /\ NextApi.onMessage clientId socket data now h = Normal tt h'
    /\ connections h' !! clientId = connections h !! clientId
    /\ (discarded data = true ->
        connections h' = connections h
        /\ messages h' = messages h
        /\ wire h' = wire h
        /\ console h' = console h ++ complaint data).
Proof.
  rewrite NextApi_onMessage_eq.
  destruct data as [[| |b|q|s|items|fields]|];
    try (rewrite onMessage_not_object by (intros ? [=]);
         eexists; split; [reflexivity|]; split; [reflexivity|];
         split; [reflexivity|]; intros _; cbn; auto).
  rewrite onMessage_object. unfold discarded.
  destruct (is_string (assoc "type" fields) "message"
            && truthy (assoc "content" fields)).
  - cbn zeta.
    match goal with |- context [broadcast ?d ?e ?s] =>
      destruct (broadcast_spec d e s) as (h' & E & _ & _ & Hc) end.
    exists h'. rewrite E. split; [reflexivity|]. split; [reflexivity|].
    split; [|discriminate].
    rewrite Hc. cbn [set_messages connections].
    destruct (connections h !! clientId) as [c|]; [|reflexivity].
    unfold targeted. cbn [fst]. by rewrite String.eqb_refl.
  - destruct (is_string (assoc "type" fields) "ping").
    + unfold try_catch, ws_send, console_error.
      destruct (sendThrows socket); eexists;
        (split; [reflexivity|]; split; [reflexivity|];
         split; [reflexivity|discriminate]).
    + exists h. repeat split; try reflexivity. cbn. by rewrite app_nil_r.
Qed.

Lemma onMessage_never_throws_witness :
  exists h',
    onMessage "a" open_socket None "2024-05-01T10:00:01.000Z" hub_pair
      = Normal tt h'
    /\ connections h' = connections hub_pair
    /\ messages h' = messages hub_pair
    /\ wire h' = wire hub_pair
    /\ console h' = [SyntaxError].
Proof.
  destruct (onMessage_never_throws "a" open_socket None
              "2024-05-01T10:00:01.000Z" hub_pair)
    as (h' & E & _ & _ & Hd).
  exists h'. split; [exact E|]. exact (Hd eq_refl).
Defined.

(** The legacy server has no [try] around its handler: text that is not
    JSON, and [null], raise out of it. *)
Lemma legacy_onMessage_throws clientId socket now h :
  Legacy.onMessage clientId socket None now h = Throw SyntaxError h
  /\ Legacy.onMessage clientId socket (Some JNull) now h = Throw TypeError h.
Proof. split; reflexivity. Qed.

(** *** Chat messages *)

(** C8, as stated, fails: a message whose content is one space is stored and
    relayed. *)
Lemma whitespace_content_is_relayed :
  let h' := state_of (onMessage "a" open_socket (Some (text_frame " "))
                                "2024-05-01T10:00:01.000Z" hub_pair) in
  let m := stamped (JString "message") (JString " ") "a"
                   "2024-05-01T10:00:01.000Z" in
  messages h' = [m] /\ wire h' = [Sent "b" (Message m)].
Proof. vm_compute. split; reflexivity. Qed.

(** C8, amended (standalone server and Next.js route): a [message] frame
    whose content is falsy - the empty string, or missing, [null], [false],
    0 - is dropped without a trace; with any other content, text made of
    white space included, the stamped record is appended to the history and
    broadcast to the open connections other than the sender. *)
Theorem message_content_gate clientId socket fields now h :
  assoc "type" fields = JString "message" ->
  let data := Some (JObject fields) in
  let m := stamped (JString "message") (assoc "content" fields) clientId now in
  (truthy (assoc "content" fields) = false ->
     onMessage clientId socket data now h = Normal tt h
     /\ NextApi.onMessage clientId socket data now h = Normal tt h)
  /\ (truthy (assoc "content" fields) = true ->
      exists h' new,
        onMessage clientId socket data now h = Normal tt h'
        /\ NextApi.onMessage clientId socket data now h = Normal tt h'
        /\ messages h' = push_shift m (messages h)
        /\ wire h' = wire h ++ new
        /\ (forall w, In w new ->
              recipient w <> clientId /\ payload w = Message m)
        /\ (forall id c,
              connections h !! id = Some c -> id <> clientId ->
              readyState (ws c) = 1%Z -> sendThrows (ws c) = false ->
              In (Sent id (Message m)) new))
  /\ (forall s, assoc "content" fields = JString s ->
        truthy (assoc "content" fields) = negb (String.eqb s "")).
Proof.
  intros Ht. cbn zeta. rewrite NextApi_onMessage_eq, onMessage_object, Ht.
  cbn [is_string]. rewrite String.eqb_refl. cbn [andb].
  split; [|split].
  - intros ->. cbn. auto.
  - intros ->. cbn zeta.
    set (m := stamped (JString "message") (assoc "content" fields) clientId now).
    set (h1 := set_messages (push_shift m (messages h)) h).
    destruct (broadcast_spec (Message m) clientId h1) as (h' & E & Hm & _).
    destruct (broadcast_wire (Message m) clientId h1) as (new & Hw & Hp & Hs).
    rewrite E in Hw |- *. exists h', new.
    split; [reflexivity|]. split; [reflexivity|]. split; [exact Hm|].
    split; [exact Hw|]. split; [exact Hp|]. exact Hs.
  - intros s ->. reflexivity.
Qed.

Lemma message_content_gate_witness :
  let m := stamped (JString "message") (JString "hello") "a"
                   "2024-05-01T10:00:01.000Z" in
  exists h' new,
    onMessage "a" open_socket (Some (text_frame "hello"))
              "2024-05-01T10:00:01.000Z" hub_pair = Normal tt h'
    /\ messages h' = [m]
    /\ wire h' = new
    /\ In (Sent "b" (Message m)) new.
Proof.
  destruct (message_content_gate "a" open_socket
              [("type", JString "message"); ("content", JString "hello")]
              "2024-05-01T10:00:01.000Z" hub_pair eq_refl)
    as (_ & Hacc & _).
  destruct (Hacc eq_refl) as (h' & new & E & _ & Hm & Hw & _ & Hs).
  exists h', new. split; [exact E|]. split; [exact Hm|]. split; [exact Hw|].
  apply (Hs "b" (conn open_socket));
    solve [vm_compute; reflexivity | discriminate].
Defined.

(** The standalone server and the Next.js route relay the record they
    stamped: whatever [clientId] and [timestamp] the frame carries, the
    envelope holds the id of the connection and the time of receipt. *)
Lemma onMessage_stamps clientId socket fields now h w :
  In w (drop (length (wire h))
          (wire (state_of (onMessage clientId socket (Some (JObject fields))
                                     now h)))) ->
  payload w = Pong
  \/ exists type content,
       payload w = Message (stamped type content clientId now).
Proof.
  rewrite onMessage_object.
  destruct (is_string (assoc "type" fields) "message"
            && truthy (assoc "content" fields)).
  - cbn zeta.
    match goal with |- context [broadcast ?d ?e ?s] =>
      destruct (broadcast_wire d e s) as (new & Hw & Hp & _) end.
    rewrite Hw. cbn [set_messages wire]. rewrite drop_app_length.
    intros Hin. right. destruct (Hp w Hin) as [_ ->]. eauto.
  - destruct (is_string (assoc "type" fields) "ping").
    + unfold try_catch, ws_send, console_error.
      destruct (sendThrows socket); cbn [state_of log_wire wire];
        rewrite drop_app_length; intros [<-|[]]; left; reflexivity.
    + cbn [state_of]. rewrite drop_all. intros [].
Qed.

(** C9 fails on the legacy server: the history gets the record stamped by
    the hub, but the envelope relayed to "b" is the sender's own object,
    with the sender's [clientId] and [timestamp] in it. *)
Theorem legacy_relays_client_fields :
  let h' := state_of (Legacy.onMessage "a" open_socket (Some forged_frame)
                                       "2024-05-01T10:00:01.000Z" hub_pair) in
  messages h' = [stamped (JString "message") (JString "hi") "a"
                         "2024-05-01T10:00:01.000Z"]
  /\ wire h' = [Sent "b" (Echo forged_frame)]
  /\ assoc "clientId" (JObject_fields forged_frame) = JString "mallory"
  /\ assoc "timestamp" (JObject_fields forged_frame)
     = JString "1970-01-01T00:00:00.000Z".
Proof. vm_compute. repeat split; reflexivity. Qed.

(** ** Properties of the clients *)

Import Browser ClientExamples.

(** *** Backoff *)

(** The class follows the schedule of the specification: the delays armed
    after consecutive failures are 3000, 6000, 12000, 24000 and 48000 ms,
    and the sixth failure arms nothing. *)
Lemma class_backoff_schedule :
  (exists c, WebSocketClient.run five_failures
               (WebSocketClient.connect (WebSocketClient.new true)) = Some c
             /\ scheduled (WebSocketClient.env c)
                = [3000; 6000; 12000; 24000; 48000]%Q
             /\ timers (WebSocketClient.env c) = [(5, 48000%Q)])
  /\ (exists c, WebSocketClient.run six_failures
                  (WebSocketClient.connect (WebSocketClient.new true)) = Some c
                /\ scheduled (WebSocketClient.env c)
                   = [3000; 6000; 12000; 24000; 48000]%Q
                /\ timers (WebSocketClient.env c) = []).
Proof. split; eexists; vm_compute; repeat split; reflexivity. Qed.

Lemma class_delay_formula c :
  (0 <= WebSocketClient.reconnectAttempts c < 5)%Z ->
  scheduled (WebSocketClient.env (WebSocketClient.scheduleReconnect c))
  = scheduled (WebSocketClient.env c)
    ++ [inject_Z (3000 * 2 ^ WebSocketClient.reconnectAttempts c)].
Proof.
  intros Hn. unfold WebSocketClient.scheduleReconnect.
  destruct (Z.leb_spec WebSocketClient.maxReconnectAttempts
              (WebSocketClient.reconnectAttempts c)) as [Hle|_];
    [unfold WebSocketClient.maxReconnectAttempts in Hle; lia|].
  assert (Hcases : WebSocketClient.reconnectAttempts c = 0%Z
                   \/ WebSocketClient.reconnectAttempts c = 1%Z
                   \/ WebSocketClient.reconnectAttempts c = 2%Z
                   \/ WebSocketClient.reconnectAttempts c = 3%Z
                   \/ WebSocketClient.reconnectAttempts c = 4%Z) by lia.
  destruct (WebSocketClient.reconnectTimer c);
    destruct Hcases as [E|[E|[E|[E|E]]]]; rewrite E; reflexivity.
Qed.

(** What the hook arms instead: 2^(attempts - 1), where the counter already
    includes the attempt that has just failed, and nothing once it is 5. *)
Lemma hook_delay_formula h :
  (UseWebSocket.reconnectAttemptsRef h = 0%Z ->
   scheduled (UseWebSocket.env (UseWebSocket.scheduleReconnect h))
   = scheduled (UseWebSocket.env h) ++ [1500%Q])
  /\ ((1 <= UseWebSocket.reconnectAttemptsRef h < 5)%Z ->
      scheduled (UseWebSocket.env (UseWebSocket.scheduleReconnect h))
      = scheduled (UseWebSocket.env h)
        ++ [inject_Z (3000 * 2 ^ (UseWebSocket.reconnectAttemptsRef h - 1))])
  /\ ((5 <= UseWebSocket.reconnectAttemptsRef h)%Z ->
      UseWebSocket.scheduleReconnect h = h).
Proof.
  unfold UseWebSocket.scheduleReconnect, UseWebSocket.maxReconnectAttempts.
  split; [|split].
  - intros E. rewrite E. cbn [Z.leb Z.compare].
    destruct (UseWebSocket.reconnectTimerRef h); reflexivity.
  - intros Hn.
    destruct (Z.leb_spec 5 (UseWebSocket.reconnectAttemptsRef h)); [lia|].
    assert (Hcases : UseWebSocket.reconnectAttemptsRef h = 1%Z
                     \/ UseWebSocket.reconnectAttemptsRef h = 2%Z
                     \/ UseWebSocket.reconnectAttemptsRef h = 3%Z
                     \/ UseWebSocket.reconnectAttemptsRef h = 4%Z) by lia.
    destruct (UseWebSocket.reconnectTimerRef h);
      destruct Hcases as [E|[E|[E|E]]]; rewrite E; reflexivity.
  - intros Hn.
    destruct (Z.leb_spec 5 (UseWebSocket.reconnectAttemptsRef h)); [reflexivity|lia].
Qed.

(** While [connecting] is set, the [connect] of a re-run effect returns at
    its guard: a render that follows one which set [connecting] changes
    nothing more than the cleanup does. *)
Lemma rerun_while_connecting h :
  UseWebSocket.connecting h = true ->
  UseWebSocket.connect (UseWebSocket.cleanup h) = UseWebSocket.cleanup h.
Proof.
  intros Hc. unfold UseWebSocket.connect.
  destruct (UseWebSocket.is_open (UseWebSocket.cleanup h)); [reflexivity|].
  destruct h as [cd cg uc ms w rt n u e]. cbn in Hc. subst cg. reflexivity.
Qed.

(** The mounted hook with a valid url never gets a socket past the next
    render: the effect that follows [setConnecting(true)] closes it. *)
Example mount_closes_its_socket :
  sockets (UseWebSocket.env (Mounted.mount true)) = [CLOSING]
  /\ Mounted.deliver (Open 0) (Mounted.mount true) = None.
Proof. vm_compute. split; reflexivity. Qed.

(** C4 fails on the hook. [connect] counts the attempt before the socket
    exists and [scheduleReconnect] reads the counter afterwards. With a url
    that the [WebSocket] constructor rejects, every attempt fails inside
    [connect], which sets [connecting] and sets it back, so no render
    intervenes: the mounted hook arms 3000 ms, and the attempts started by
    the timers arm 6000, 12000 and 24000 ms; the attempt started by the
    fourth timer is the fifth failure in a row and arms nothing. 48000 ms
    is never used, and there is no sixth attempt. *)
Theorem hook_backoff_schedule :
  scheduled (UseWebSocket.env (Mounted.mount false)) = [3000%Q]
  /\ exists h,
       Mounted.run [Timeout 1; Timeout 2; Timeout 3; Timeout 4]
                   (Mounted.mount false) = Some h
       /\ scheduled (UseWebSocket.env h) = [3000; 6000; 12000; 24000]%Q
       /\ timers (UseWebSocket.env h) = []
       /\ sockets (UseWebSocket.env h) = []
       /\ UseWebSocket.reconnectAttemptsRef h = 5%Z
       /\ UseWebSocket.connecting h = false.
Proof.
  split; [vm_compute; reflexivity|].
  eexists. vm_compute. repeat split; reflexivity.
Qed.

(** *** Disconnecting *)

(** When [disconnect] returns, the timer it found is no longer pending, the
    client has forgotten both timer and socket, and the socket is closing
    or closed. *)
Lemma disconnect_cancels_and_closes c :
  WebSocketClient.reconnectTimer (WebSocketClient.disconnect c) = None
  /\ WebSocketClient.ws (WebSocketClient.disconnect c) = None
  /\ (forall t, WebSocketClient.reconnectTimer c = Some t ->
        pending t (WebSocketClient.env (WebSocketClient.disconnect c)) = false)
  /\ (forall s r, WebSocketClient.ws c = Some s ->
        readyState s (WebSocketClient.env (WebSocketClient.disconnect c))
        = Some r -> (CLOSING <= r)%Z).
Proof.
  assert (Hclear : forall t l,
             existsb (fun p : nat * Q => Nat.eqb (fst p) t)
               (List.filter (fun p => negb (Nat.eqb (fst p) t)) l) = false).
  { intros t l. induction l as [|p l IH]; [reflexivity|]. cbn.
    destruct (Nat.eqb (fst p) t) eqn:E; cbn; [exact IH|]. by rewrite E. }
  assert (Hclose : forall s r e, readyState s (close s e) = Some r ->
                                 (CLOSING <= r)%Z).
  { intros s r e. unfold close, readyState, set_readyState.
    destruct (sockets e !! s) as [r0|] eqn:Hs; [|by rewrite Hs].
    destruct (Z.ltb_spec r0 CLOSING) as [Hlt|Hge].
    - cbn [sockets]. rewrite list_lookup_insert_eq
        by (apply lookup_lt_is_Some; eauto).
      intros [= <-]. lia.
    - rewrite Hs. intros [= <-]. exact Hge. }
  destruct c as [w t n u nt e]. unfold WebSocketClient.disconnect.
  cbn [WebSocketClient.reconnectTimer WebSocketClient.ws WebSocketClient.env].
  destruct t as [t|], w as [s|];
    cbn [WebSocketClient.reconnectTimer WebSocketClient.ws WebSocketClient.env];
    (split; [reflexivity|]); (split; [reflexivity|]); split;
    try (intros ? [=]; fail); try (intros ? ? [=]; fail).
  - intros t' [= <-]. unfold pending, close.
    destruct (readyState s (clearTimeout t e)) as [r|]; [|apply Hclear].
    destruct (r <? CLOSING)%Z; apply Hclear.
  - intros s' r [= <-]. apply Hclose.
  - intros t' [= <-]. apply Hclear.
  - intros s' r [= <-]. apply Hclose.
Qed.

(** C5 fails on both clients. [disconnect] clears the timer and closes the
    socket, but leaves the [onclose] listener on it: when the browser
    delivers the close event of that very socket, the listener arms a new
    timer (3000 ms), and when the timer fires a new socket is opened. The
    cleanup of the hook does the same (1500 ms). *)
Theorem disconnect_is_followed_by_reconnect :
  (exists c1 c2 c3,
      WebSocketClient.run [Open 0]
        (WebSocketClient.connect (WebSocketClient.new true)) = Some c1
      /\ timers (WebSocketClient.env (WebSocketClient.disconnect c1)) = []
      /\ sockets (WebSocketClient.env (WebSocketClient.disconnect c1))
         = [CLOSING]
      /\ WebSocketClient.step (Close 0) (WebSocketClient.disconnect c1)
         = Some c2
      /\ timers (WebSocketClient.env c2) = [(1, 3000%Q)]
      /\ WebSocketClient.step (Timeout 1) c2 = Some c3
      /\ sockets (WebSocketClient.env c3) = [CLOSED; CONNECTING]
      /\ WebSocketClient.ws c3 = Some 1)
  /\ (exists h1 h2 h3,
      UseWebSocket.run [Open 0]
        (UseWebSocket.connect (UseWebSocket.initial true)) = Some h1
      /\ timers (UseWebSocket.env (UseWebSocket.cleanup h1)) = []
      /\ sockets (UseWebSocket.env (UseWebSocket.cleanup h1)) = [CLOSING]
      /\ UseWebSocket.step (Close 0) (UseWebSocket.cleanup h1) = Some h2
      /\ timers (UseWebSocket.env h2) = [(1, 1500%Q)]
      /\ UseWebSocket.step (Timeout 1) h2 = Some h3
      /\ sockets (UseWebSocket.env h3) = [CLOSED; CONNECTING]
      /\ UseWebSocket.wsRef h3 = Some 1).
Proof.
  split; do 3 eexists; vm_compute; repeat split; reflexivity.
Qed.

(** The same on the hook as React mounts it. The socket of the mounted hook
    is already closing; once the component is unmounted (the cleanup has
    run, and no render follows any more), the close event of that socket
    arms a timer of 3000 ms, and when it fires [connect] opens a socket. *)
Example unmounted_hook_reconnects :
  exists h2 h3,
    timers (UseWebSocket.env (UseWebSocket.cleanup (Mounted.mount true))) = []
    /\ UseWebSocket.step (Close 0) (UseWebSocket.cleanup (Mounted.mount true))
       = Some h2
    /\ timers (UseWebSocket.env h2) = [(1, 3000%Q)]
    /\ UseWebSocket.step (Timeout 1) h2 = Some h3
    /\ sockets (UseWebSocket.env h3) = [CLOSED; CONNECTING].
Proof. do 2 eexists. vm_compute. repeat split; reflexivity. Qed.

(** *** The message list of the hook *)

Import HookSpec.

Lemma onmessage_messages data h :
  UseWebSocket.messages (UseWebSocket.onmessage data h) =
  match replacement data, accepted_message data with
  | Some recent, _ => recent
  | None, Some m => take 100 (m :: UseWebSocket.messages h)
  | None, None => UseWebSocket.messages h
  end.
Proof.
  unfold UseWebSocket.onmessage, replacement, accepted_message.
  destruct data as [message|]; [|reflexivity].
  destruct (String.eqb_spec (UseWebSocket.msg_type message) "connected") as [E|_].
  - rewrite E. cbn [String.eqb Ascii.eqb Bool.eqb andb].
    destruct (UseWebSocket.msg_userCount message),
             (UseWebSocket.msg_recentMessages message); reflexivity.
  - destruct (String.eqb_spec (UseWebSocket.msg_type message) "userCount") as [E|_].
    + rewrite E. cbn [String.eqb Ascii.eqb Bool.eqb andb].
      destruct (UseWebSocket.msg_count message); reflexivity.
    + destruct (String.eqb (UseWebSocket.msg_type message) "message");
        [|reflexivity].
      destruct (UseWebSocket.truthy_string (UseWebSocket.msg_content message)),
               (UseWebSocket.truthy_string (UseWebSocket.msg_clientId message)),
               (UseWebSocket.truthy_string (UseWebSocket.msg_timestamp message));
        reflexivity.
Qed.

Lemma take_take_cons {A} (x : A) (l l' : list A) :
  take 100 (l ++ take 100 (x :: l')) = take 100 (l ++ x :: l').
Proof.
  destruct (Nat.le_gt_cases 100 (length l)) as [Hl|Hl].
  - by rewrite !take_app_le by lia.
  - rewrite !take_app_ge by lia. f_equal.
    rewrite take_take. f_equal. lia.
Qed.

Lemma receive_all_messages frames :
  forall h,
    forallb keeps_list frames = true ->
    length (UseWebSocket.messages h) <= 100 ->
    UseWebSocket.messages (UseWebSocket.receive_all frames h)
    = take 100 (rev (omap accepted_message frames) ++ UseWebSocket.messages h).
Proof.
  induction frames as [|data frames IH]; intros h Hk Hl.
  - cbn. by rewrite take_ge.
  - cbn [forallb] in Hk. apply andb_prop in Hk as [Hd Hk].
    cbn [UseWebSocket.receive_all fold_left].
    fold (UseWebSocket.receive_all frames (UseWebSocket.onmessage data h)).
    pose proof (onmessage_messages data h) as Hm.
    unfold keeps_list in Hd.
    destruct (replacement data); [discriminate|].
    change (omap accepted_message (data :: frames))
      with (match accepted_message data with
            | Some m => m :: omap accepted_message frames
            | None => omap accepted_message frames
            end).
    destruct (accepted_message data) as [m|].
    + rewrite IH, Hm; [|exact Hk|rewrite Hm, length_take; lia].
      cbn [rev]. rewrite <- app_assoc. cbn [app]. apply take_take_cons.
    + rewrite IH, Hm; [reflexivity|exact Hk|by rewrite Hm].
Qed.

(** C10, as stated, fails: a [connected] envelope replaces the list by the
    history it carries, whatever its length; with 101 entries in it the
    list holds 101 entries. *)
Lemma hook_list_can_exceed_100 :
  ~ (forall frames,
       length (UseWebSocket.messages
                 (UseWebSocket.receive_all frames (UseWebSocket.initial true)))
       <= 100).
Proof.
  intros H.
  specialize (H [Some (connected_envelope (repeat (entry "old") 101))]).
  vm_compute in H. lia.
Qed.

(** The history of a [connected] envelope is kept in the order of the hub,
    oldest first, and later messages are put in front of it. *)
Example hook_list_after_welcome :
  List.map UseWebSocket.content
    (UseWebSocket.messages
       (UseWebSocket.receive_all
          [Some (connected_envelope [entry "first"; entry "second"]);
           Some (message_envelope (Some "third") (Some "b")
                                  (Some "2024-05-01T10:00:09.000Z"))]
          (UseWebSocket.initial true)))
  = ["third"; "first"; "second"].
Proof. reflexivity. Qed.

(** C10, amended: a [message] envelope that lacks [content], [clientId] or
    [timestamp] (or carries an empty one) is dropped; an accepted message is
    put in front of the list, which is then cut to its first 100 entries.
    So along frames that do not replace the list, starting from at most 100
    entries, the list is the accepted messages, newest first, followed by
    what was there, cut to 100. A [connected] envelope with a history
    replaces the list by that history as it is. *)
Theorem hook_message_list frames h :
  forallb keeps_list frames = true ->
  length (UseWebSocket.messages h) <= 100 ->
  UseWebSocket.messages (UseWebSocket.receive_all frames h)
  = take 100 (rev (omap accepted_message frames) ++ UseWebSocket.messages h)
  /\ length (UseWebSocket.messages (UseWebSocket.receive_all frames h)) <= 100
  /\ (forall message h0,
        UseWebSocket.msg_type message = "message" ->
        UseWebSocket.truthy_string (UseWebSocket.msg_content message) = None
        \/ UseWebSocket.truthy_string (UseWebSocket.msg_clientId message) = None
        \/ UseWebSocket.truthy_string (UseWebSocket.msg_timestamp message) = None ->
        UseWebSocket.onmessage (Some message) h0 = h0)
  /\ (forall message recent h0,
        UseWebSocket.msg_type message = "connected" ->
        UseWebSocket.msg_recentMessages message = Some recent ->
        UseWebSocket.messages (UseWebSocket.onmessage (Some message) h0)
        = recent).
Proof.
  intros Hk Hl. split; [by apply receive_all_messages|]. split; [|split].
  - rewrite receive_all_messages by done. rewrite length_take. lia.
  - intros message h0 Ht Hlack. unfold UseWebSocket.onmessage. rewrite Ht.
    cbn [String.eqb Ascii.eqb Bool.eqb andb].
    destruct (UseWebSocket.truthy_string (UseWebSocket.msg_content message)),
             (UseWebSocket.truthy_string (UseWebSocket.msg_clientId message)),
             (UseWebSocket.truthy_string (UseWebSocket.msg_timestamp message));
      try reflexivity.
    destruct Hlack as [?|[?|?]]; discriminate.
  - intros message recent h0 Ht Hr. rewrite onmessage_messages.
    unfold replacement. by rewrite Ht, Hr.
Qed.

Lemma hook_message_list_witness :
  let frames :=
    [Some (message_envelope (Some "one") (Some "b")
                            (Some "2024-05-01T10:00:01.000Z"));
     Some (message_envelope (Some "lost") None
                            (Some "2024-05-01T10:00:02.000Z"));
     None;
     Some (message_envelope (Some "two") (Some "b")
                            (Some "2024-05-01T10:00:03.000Z"))] in
  List.map UseWebSocket.content
    (UseWebSocket.messages
       (UseWebSocket.receive_all frames (UseWebSocket.initial true)))
  = ["two"; "one"].
Proof.
  cbn zeta.
  match goal with |- context [UseWebSocket.receive_all ?f ?h] =>
    destruct (hook_message_list f h) as (E & _);
      [reflexivity | cbn; lia | rewrite E; reflexivity]
  end.
Defined.

(** ** More properties of the hub *)

Import HubRun.

Lemma broadcast_shrinks data ex h :
  connections (state_of (broadcast data ex h)) ⊆ connections h
  /\ messages (state_of (broadcast data ex h)) = messages h.
Proof.
  destruct (broadcast_spec data ex h) as (h' & E & Hm & _ & Hc).
  rewrite E. cbn [state_of]. split; [|exact Hm].
  apply map_subseteq_spec. intros id c. rewrite Hc.
  destruct (connections h !! id) as [c0|]; [|discriminate].
  destruct (targeted ex (id, c0) && sendThrows (ws c0)); [discriminate|done].
Qed.

Lemma push_shift_length m (history : list MessageData) :
  length history <= 100 -> length (push_shift m history) <= 100.
Proof.
  intros Hl. unfold push_shift, MAX_MESSAGES. rewrite length_app. cbn [length].
  destruct (Nat.ltb_spec 100 (length history + 1)).
  - destruct history as [|x history]; cbn [app tail]; [cbn; lia|].
    rewrite length_app. cbn [length] in *. lia.
  - rewrite length_app. cbn [length]. lia.
Qed.

Lemma onConnection_run clientId socket at_ ua h :
  let c := {| ws := socket; connectedAt := at_; userAgent := ua |} in
  (exists h', onConnection clientId socket at_ ua h = Throw SendError h'
              /\ messages h' = messages h)
  \/ (exists h', onConnection clientId socket at_ ua h = Normal tt h'
                 /\ sendThrows socket = false
                 /\ connections h' ⊆ <[clientId := c]> (connections h)
                 /\ messages h' = messages h).
Proof.
  cbn zeta. unfold onConnection, bind, connections_set, connections_size,
    messages_recent, ws_send. cbn.
  destruct (sendThrows socket); [left; eexists; split; reflexivity|].
  right.
  match goal with |- context [broadcast ?d ?e ?s] =>
    destruct (broadcast_spec d e s) as (h' & E & _);
    destruct (broadcast_shrinks d e s) as [Hc Hm] end.
  rewrite E in Hc, Hm |- *. cbn [state_of] in Hc, Hm.
  exists h'. repeat split; assumption.
Qed.

Lemma onMessage_run clientId socket data now h :
  exists h',
    onMessage clientId socket data now h = Normal tt h'
    /\ connections h' ⊆ connections h
    /\ (length (messages h) <= 100 -> length (messages h') <= 100).
Proof.
  destruct (onMessage_history clientId socket data now h) as (h' & E & Hm).
  exists h'. split; [exact E|]. split.
  - assert (Hs : connections (state_of (onMessage clientId socket data now h))
                 ⊆ connections h).
    { destruct data as [[| |b|q|s|items|fields]|];
        try (rewrite onMessage_not_object by (intros ? [=]); reflexivity).
      rewrite onMessage_object.
      destruct (is_string (assoc "type" fields) "message"
                && truthy (assoc "content" fields)).
      - cbn zeta.
        match goal with |- context [broadcast ?d ?e ?s] =>
          destruct (broadcast_shrinks d e s) as [Hc _] end.
        exact Hc.
      - destruct (is_string (assoc "type" fields) "ping"); [|reflexivity].
        unfold try_catch, ws_send, console_error.
        destruct (sendThrows socket); reflexivity. }
    by rewrite E in Hs.
  - intros Hl. rewrite Hm.
    destruct (accepted _); [by apply push_shift_length|exact Hl].
Qed.

Lemma onClose_run clientId h :
  exists h',
    onClose clientId h = Normal tt h'
    /\ connections h' ⊆ delete clientId (connections h)
    /\ messages h' = messages h.
Proof.
  unfold onClose, bind, connections_delete, connections_size.
  match goal with |- context [broadcast ?d ?e ?s] =>
    destruct (broadcast_spec d e s) as (h' & E & _);
    destruct (broadcast_shrinks d e s) as [Hc Hm] end.
  rewrite E in Hc, Hm |- *. exists h'. repeat split; assumption.
Qed.

Lemma onError_run clientId h :
  exists h',
    onError clientId h = Normal tt h'
    /\ connections h' ⊆ delete clientId (connections h)
    /\ messages h' = messages h.
Proof.
  unfold onError, bind, console_error, connections_delete, connections_size.
  match goal with |- context [broadcast ?d ?e ?s] =>
    destruct (broadcast_spec d e s) as (h' & E & _);
    destruct (broadcast_shrinks d e s) as [Hc Hm] end.
  rewrite E in Hc, Hm |- *. exists h'. repeat split; assumption.
Qed.

Lemma handle_step ev l (m : gmap string Connection) fate :
  loop_inv l m -> handle ev l = Some fate ->
  match fate with
  | Running l' => loop_inv l' (admitted ev m)
  | Exited h => length (messages h) <= 100
  end.
Proof.
  destruct l as [h att]. unfold loop_inv. cbn [hub listening].
  intros (Hlen & Hsub & Hatt).
  destruct ev as [id socket at_ ua|id data now|id|id|id socket];
    cbn [handle admitted hub listening].
  - intros [= <-].
    destruct (onConnection_run id socket at_ ua h)
      as [(h' & E & Hm)|(h' & E & _ & Hc & Hm)]; rewrite E; cbn [continue].
    + by rewrite Hm.
    + cbn [hub listening]. split; [by rewrite Hm|]. split.
      * etrans; [exact Hc|]. by apply insert_mono.
      * intros id' c Hl. pose proof (lookup_weaken _ _ _ _ Hl Hc) as Hl'.
        destruct (decide (id = id')) as [Heq|Hne].
        -- subst id'. rewrite lookup_insert_eq in Hl'.
           rewrite lookup_insert_eq. by injection Hl' as <-.
        -- rewrite lookup_insert_ne in Hl' by done.
           rewrite lookup_insert_ne by done. by apply Hatt.
  - destruct (att !! id) as [socket|]; [|discriminate]. intros [= <-].
    destruct (onMessage_run id socket data now h) as (h' & E & Hc & Hm).
    rewrite E. cbn [continue hub listening]. split; [by apply Hm|]. split.
    + etrans; [exact Hc|exact Hsub].
    + intros id' c Hl. apply Hatt. by eapply lookup_weaken.
  - destruct (att !! id) as [socket|]; [|discriminate]. intros [= <-].
    destruct (onClose_run id h) as (h' & E & Hc & Hm).
    rewrite E. cbn [continue hub listening]. split; [by rewrite Hm|]. split.
    + etrans; [exact Hc|]. by apply delete_mono.
    + intros id' c Hl. pose proof (lookup_weaken _ _ _ _ Hl Hc) as Hl'.
      destruct (decide (id = id')) as [Heq|Hne].
      * subst id'. by rewrite lookup_delete_eq in Hl'.
      * rewrite lookup_delete_ne in Hl' by done.
        rewrite lookup_delete_ne by done. by apply Hatt.
  - destruct (att !! id) as [socket|]; [|discriminate]. intros [= <-].
    destruct (onError_run id h) as (h' & E & Hc & Hm).
    rewrite E. cbn [continue hub listening]. split; [by rewrite Hm|]. split.
    + etrans; [exact Hc|]. by apply delete_mono.
    + intros id' c Hl. pose proof (lookup_weaken _ _ _ _ Hl Hc) as Hl'.
      destruct (decide (id = id')) as [Heq|Hne].
      * subst id'. by rewrite lookup_delete_eq in Hl'.
      * rewrite lookup_delete_ne in Hl' by done. by apply Hatt.
  - destruct (att !! id) as [socket0|]; [|discriminate]. intros [= <-].
    cbn [hub listening set_transport connections messages].
    split; [exact Hlen|]. split.
    + apply map_subseteq_spec. intros id' c.
      destruct (decide (id = id')) as [Heq|Hne].
      * subst id'. rewrite !lookup_alter_eq.
        destruct (connections h !! id) as [c0|] eqn:E; [|discriminate].
        rewrite (lookup_weaken _ _ _ _ E Hsub). done.
      * rewrite !lookup_alter_ne by done. intros Hl. by eapply lookup_weaken.
    + intros id' c.
      destruct (decide (id = id')) as [Heq|Hne].
      * subst id'. rewrite lookup_alter_eq, lookup_insert_eq.
        destruct (connections h !! id) as [c0|]; [|discriminate].
        by intros [= <-].
      * rewrite lookup_alter_ne, lookup_insert_ne by done. apply Hatt.
Qed.

(** X1: in every run of the event loop from the start of the server, as
    long as the process runs, the history holds at most 100 records, the
    registry is a sub-map of what the accepts and disconnects alone would
    have left (an identity is registered only if it was accepted and has
    not been closed since, with the socket as it is now), and every
    registered connection has its listeners attached, so that its close
    will be handled. If the process exits, the history held at most 100
    records until then. *)
Theorem hub_run_invariants evs fate :
  handle_all evs boot = Some fate ->
  match fate with
  | Running l =>
      length (messages (hub l)) <= 100
      /\ connections (hub l) ⊆ admitted_all evs ∅
      /\ forall clientId c,
           connections (hub l) !! clientId = Some c ->
           listening l !! clientId = Some (ws c)
  | Exited h => length (messages h) <= 100
  end.
Proof.
  assert (G : forall evs l (m : gmap string Connection) fate,
             loop_inv l m -> handle_all evs l = Some fate ->
             match fate with
             | Running l' => loop_inv l' (admitted_all evs m)
             | Exited h => length (messages h) <= 100
             end).
  { clear. induction evs as [|ev evs IH]; intros l m fate Hi.
    - intros [= <-]. exact Hi.
    - cbn [handle_all admitted_all fold_left].
      destruct (handle ev l) as [[l'|h]|] eqn:Eh; [| |discriminate].
      + apply IH. exact (handle_step ev l m (Running l') Hi Eh).
      + intros [= <-]. exact (handle_step ev l m (Exited h) Hi Eh). }
  intros Hrun. apply (G evs boot ∅ fate); [|exact Hrun].
  unfold loop_inv, boot. cbn. split; [lia|]. split; [done|].
  intros id c. by rewrite lookup_empty.
Qed.

Import RunExamples.

Lemma hub_run_invariants_witness :
  exists l,
    handle_all busy_evening boot = Some (Running l)
    /\ length (messages (hub l)) <= 100
    /\ connections (hub l) ⊆ admitted_all busy_evening ∅
    /\ forall clientId c,
         connections (hub l) !! clientId = Some c ->
         listening l !! clientId = Some (ws c).
Proof.
  eexists. split; [vm_compute; reflexivity|].
  match goal with |- context [hub ?l] =>
    apply (hub_run_invariants busy_evening (Running l)) end.
  vm_compute. reflexivity.
Defined.

(** In that run "b" was accepted and never closed, yet it is gone: the
    broadcast of the message evicted it, after its socket had started to
    fail. *)
Example eviction_in_a_run :
  exists l,
    handle_all busy_evening boot = Some (Running l)
    /\ connections (hub l) !! "b" = None
    /\ is_Some (admitted_all busy_evening ∅ !! "b")
    /\ is_Some (connections (hub l) !! "c").
Proof. eexists. split; [vm_compute; reflexivity|]. vm_compute. repeat split; eauto. Qed.

(** A welcome that cannot be sent ends the process: the close of "b" is
    never handled, and "b" was still registered. *)
Example exit_in_a_run :
  exists h,
    handle_all bad_accept boot = Some (Exited h)
    /\ is_Some (connections h !! "b").
Proof. eexists. split; [vm_compute; reflexivity|]. vm_compute. eauto. Qed.

(** *** The count after an eviction *)

(** X2: when a socket closes and the send of the presence update raises for
    some other open connection, that connection is evicted during the
    broadcast: the registry ends up strictly smaller than the count that
    every recipient was sent, and the handler sends nothing but that one
    count. *)
Theorem onClose_count_overstates h clientId bad cb :
  connections h !! bad = Some cb ->
  bad <> clientId ->
  Hub.readyState (ws cb) = 1%Z ->
  sendThrows (ws cb) = true ->
  exists new,
    wire (state_of (onClose clientId h)) = wire h ++ new
    /\ (forall w, In w new ->
          payload w = UserCount (size (delete clientId (connections h))))
    /\ size (connections (state_of (onClose clientId h)))
       < size (delete clientId (connections h)).
Proof.
  intros Hb Hne Hr Hs.
  set (h1 := set_connections (delete clientId (connections h)) h).
  change (onClose clientId h)
    with (broadcast (UserCount (size (connections h1))) clientId h1).
  destruct (broadcast_wire (UserCount (size (connections h1))) clientId h1)
    as (new & Hw & Hp & _).
  exists new. split; [exact Hw|]. split; [intros w Hin; by apply Hp|].
  destruct (broadcast_spec (UserCount (size (connections h1))) clientId h1)
    as (h' & E & _ & _ & Hc).
  rewrite E. cbn [state_of]. apply map_subset_size.
  apply map_subset_alt. split.
  - pose proof (broadcast_shrinks (UserCount (size (connections h1)))
                  clientId h1) as [Hsub _].
    rewrite E in Hsub. exact Hsub.
  - exists bad. split.
    + rewrite Hc. cbn [h1 set_connections connections].
      rewrite lookup_delete_ne, Hb by done.
      assert (Ht : targeted clientId (bad, cb) = true) by by apply targeted_iff.
      by rewrite Ht, Hs.
    + cbn [h1 set_connections connections].
      rewrite lookup_delete_ne, Hb by done. eauto.
Qed.

Lemma onClose_count_overstates_witness :
  exists new,
    wire (state_of (onClose "a" hub_leaving)) = wire hub_leaving ++ new
    /\ (forall w, In w new -> payload w = UserCount 2)
    /\ size (connections (state_of (onClose "a" hub_leaving))) < 2.
Proof.
  apply (onClose_count_overstates hub_leaving "a" "b" (conn broken_socket));
    solve [vm_compute; reflexivity | discriminate].
Defined.

(** *** Keepalive *)

(** X3: a ping is answered with one pong, sent on the socket of the sender
    and to nobody else; registry and history are left alone. If that send
    raises, the standalone server and the Next.js route log the error and go
    on, whereas in the legacy server the exception leaves the handler. *)
Theorem ping_gets_one_pong clientId socket fields now h :
  assoc "type" fields = JString "ping" ->
  let reply := if sendThrows socket then SendFailed clientId Pong
               else Sent clientId Pong in
  exists h',
    onMessage clientId socket (Some (JObject fields)) now h = Normal tt h'
    /\ NextApi.onMessage clientId socket (Some (JObject fields)) now h
       = Normal tt h'
    /\ connections h' = connections h
    /\ messages h' = messages h
    /\ wire h' = wire h ++ [reply]
    /\ console h' = console h ++ (if sendThrows socket then [SendError] else [])
    /\ Legacy.onMessage clientId socket (Some (JObject fields)) now h
       = if sendThrows socket
         then Throw SendError (log_wire reply h)
         else Normal tt (log_wire reply h).
Proof.
  intros Ht. cbn zeta. rewrite NextApi_onMessage_eq, onMessage_object, Ht.
  unfold Legacy.onMessage, bind, JSON_parse, lift, prop. cbn [ret]. rewrite Ht.
  cbn [is_string String.eqb Ascii.eqb Bool.eqb andb].
  unfold try_catch, ws_send, console_error.
  destruct (sendThrows socket); eexists;
    (split; [reflexivity|]); (split; [reflexivity|]); cbn;
    rewrite ?app_nil_r; repeat split; reflexivity.
Qed.

Lemma ping_gets_one_pong_witness :
  exists h',
    onMessage "a" open_socket (Some ping_frame) "2024-05-01T10:00:01.000Z"
              hub_pair = Normal tt h'
    /\ connections h' = connections hub_pair
    /\ messages h' = []
    /\ wire h' = [Sent "a" Pong].
Proof.
  destruct (ping_gets_one_pong "a" open_socket [("type", JString "ping")]
              "2024-05-01T10:00:01.000Z" hub_pair eq_refl)
    as (h' & E & _ & Hc & Hm & Hw & _).
  exists h'. repeat split; assumption.
Defined.

(** *** The welcome *)

Lemma slice_last_10_of_100 {A} (l : list A) :
  slice_last 10 (slice_last 100 l) = slice_last 10 l.
Proof.
  unfold slice_last. rewrite drop_drop, length_drop. f_equal. lia.
Qed.

(** X4: a newcomer is first sent a [connected] envelope with its own id, a
    user count that includes itself (so at least 1, and one more than before
    when the id is new), and the most recent records of the history, at most
    10 of them, oldest first. *)
Theorem welcome_carries_recent_history frames h clientId socket at_ ua :
  messages h = [] ->
  let h1 := receive_all frames h in
  let registered :=
    <[clientId := {| ws := socket; connectedAt := at_; userAgent := ua |}]>
      (connections h1) in
  let recent := slice_last 10 (appended frames) in
  let welcome := Connected clientId (size registered) recent in
  exists rest,
    wire (state_of (onConnection clientId socket at_ ua h1))
    = wire h1 ++ (if sendThrows socket then SendFailed clientId welcome
                  else Sent clientId welcome) :: rest
    /\ 1 <= size registered
    /\ (connections h1 !! clientId = None ->
        size registered = S (size (connections h1)))
    /\ length recent = Nat.min (length (appended frames)) 10.
Proof.
  intros Hh. cbn zeta.
  assert (Hm : messages (receive_all frames h) = slice_last 100 (appended frames)).
  { apply (receive_all_history frames h []). by rewrite Hh. }
  set (h1 := receive_all frames h) in *. clearbody h1.
  set (c := {| ws := socket; connectedAt := at_; userAgent := ua |}).
  assert (Hrec : slice_last 10 (messages h1) = slice_last 10 (appended frames))
    by (rewrite Hm; apply slice_last_10_of_100).
  unfold onConnection, bind, connections_set, connections_size,
    messages_recent, ws_send. cbn. fold c.
  change (drop (length (messages h1) - 10) (messages h1))
    with (slice_last 10 (messages h1)). rewrite Hrec.
  assert (Hsize : 1 <= size (<[clientId := c]> (connections h1))).
  { destruct (connections h1 !! clientId) eqn:Hl.
    - rewrite map_size_insert_Some by eauto.
      destruct (decide (size (connections h1) = 0)) as [Hz|]; [|lia].
      apply map_size_empty_iff in Hz. rewrite Hz in Hl. by rewrite lookup_empty in Hl.
    - rewrite map_size_insert_None by done. lia. }
  destruct (sendThrows socket).
  - exists []. cbn [state_of log_wire wire]. split; [reflexivity|].
    split; [exact Hsize|]. split; [apply map_size_insert_None|].
    apply length_slice_last.
  - match goal with |- context [broadcast ?d ?e ?s] =>
      destruct (broadcast_wire d e s) as (new & Hw & _) end.
    exists new. rewrite Hw. cbn [log_wire wire]. rewrite <- app_assoc.
    split; [reflexivity|]. split; [exact Hsize|].
    split; [apply map_size_insert_None|]. apply length_slice_last.
Qed.

Lemma welcome_carries_recent_history_witness :
  let frames :=
    [inbound_from_a (Some (text_frame "one")) "2024-05-01T10:00:01.000Z";
     inbound_from_a (Some (text_frame "two")) "2024-05-01T10:00:02.000Z"] in
  exists rest,
    wire (state_of (onConnection "c" open_socket "2024-05-01T10:00:05.000Z"
                      None (receive_all frames hub_pair)))
    = wire (receive_all frames hub_pair)
      ++ Sent "c" (Connected "c" 3
           [stamped (JString "message") (JString "one") "a"
                    "2024-05-01T10:00:01.000Z";
            stamped (JString "message") (JString "two") "a"
                    "2024-05-01T10:00:02.000Z"]) :: rest.
Proof.
  cbn zeta.
  match goal with |- context [receive_all ?f _] =>
    destruct (welcome_carries_recent_history f hub_pair "c" open_socket
                "2024-05-01T10:00:05.000Z" None eq_refl)
      as (rest & Hw & _) end.
  exists rest. exact Hw.
Defined.

(** *** The legacy history *)

Lemma legacy_onMessage_history i h h' :
  Legacy.onMessage (in_clientId i) (in_socket i) (in_data i) (in_now i) h
  = Normal tt h' ->
  messages h' =
  match legacy_accepted i with
  | Some m => push_shift m (messages h)
  | None => messages h
  end.
Proof.
  destruct i as [clientId socket data now].
  unfold legacy_accepted, Legacy.onMessage.
  cbn [in_clientId in_socket in_data in_now].
  unfold bind, JSON_parse, lift, prop.
  destruct data as [[| |b|q|s|items|fields]|]; cbn [ret throw];
    try discriminate; try (by intros [= <-]).
  destruct (is_string (assoc "type" fields) "message").
  - unfold messages_append.
    match goal with |- context [broadcast ?d ?e ?s] =>
      destruct (broadcast_spec d e s) as (h1 & E & Hm & _); rewrite E end.
    intros [= <-]. exact Hm.
  - destruct (is_string (assoc "type" fields) "ping"); [|by intros [= <-]].
    unfold ws_send. destruct (sendThrows socket); [discriminate|].
    by intros [= <-].
Qed.

(** X5: the legacy server keeps the same bounded history, but it stores a
    record for every object whose type is 'message', with or without
    content: as long as no frame makes the handler raise (which ends the
    process), from an empty history the buffer is the last 100 of those
    records, in order. *)
Theorem legacy_history_holds_last_100 frames h h' :
  messages h = [] ->
  legacy_receive_all frames h = Some h' ->
  messages h' = slice_last 100 (omap legacy_accepted frames)
  /\ length (messages h') <= MAX_MESSAGES.
Proof.
  intros Hh Hrun.
  assert (G : forall frames h pre,
             messages h = slice_last 100 pre ->
             legacy_receive_all frames h = Some h' ->
             messages h' = slice_last 100 (pre ++ omap legacy_accepted frames)).
  { clear. induction frames as [|i frames IH]; intros h pre Hh.
    - cbn. intros [= <-]. by rewrite app_nil_r.
    - cbn [legacy_receive_all].
      destruct (Legacy.onMessage (in_clientId i) (in_socket i) (in_data i)
                                 (in_now i) h) as [[] h1|e h1] eqn:E;
        [|discriminate].
      change (omap legacy_accepted (i :: frames))
        with (match legacy_accepted i with
              | Some m => m :: omap legacy_accepted frames
              | None => omap legacy_accepted frames
              end).
      pose proof (legacy_onMessage_history i h h1 E) as Hr.
      destruct (legacy_accepted i) as [m|].
      + replace (pre ++ m :: omap legacy_accepted frames)
          with ((pre ++ [m]) ++ omap legacy_accepted frames)
          by by rewrite <- app_assoc.
        apply IH. rewrite Hr, Hh. apply push_shift_slice_last.
      + apply IH. by rewrite Hr. }
  assert (E : messages h' = slice_last 100 (omap legacy_accepted frames)).
  { apply (G frames h []); [by rewrite Hh|exact Hrun]. }
  rewrite E, length_slice_last. unfold MAX_MESSAGES. split; [reflexivity|lia].
Qed.

Lemma legacy_history_holds_last_100_witness :
  exists h',
    legacy_receive_all
      [inbound_from_a (Some bare_frame) "2024-05-01T10:00:01.000Z";
       inbound_from_a (Some (text_frame "two")) "2024-05-01T10:00:03.000Z"]
      hub_pair = Some h'
    /\ messages h'
       = [stamped (JString "message") JUndefined "a" "2024-05-01T10:00:01.000Z";
          stamped (JString "message") (JString "two") "a"
                  "2024-05-01T10:00:03.000Z"].
Proof.
  eexists. split; [vm_compute; reflexivity|].
  match goal with |- messages ?h' = _ =>
    destruct (legacy_history_holds_last_100
                [inbound_from_a (Some bare_frame) "2024-05-01T10:00:01.000Z";
                 inbound_from_a (Some (text_frame "two"))
                                "2024-05-01T10:00:03.000Z"]
                hub_pair h' eq_refl) as (E & _)
  end; [vm_compute; reflexivity|].
  rewrite E. reflexivity.
Defined.

(** Text that is not JSON ends the run of the legacy server. *)
Example legacy_run_ends :
  legacy_receive_all
    [inbound_from_a (Some (text_frame "one")) "2024-05-01T10:00:01.000Z";
     inbound_from_a None "2024-05-01T10:00:02.000Z";
     inbound_from_a (Some (text_frame "two")) "2024-05-01T10:00:03.000Z"]
    hub_pair = None.
Proof. reflexivity. Qed.

(** *** The HTTP side of the Next.js route *)

Lemma serve_spec methods :
  forall s,
    let out := Route.serve methods s in
    List.map Route.status (fst out)
    = List.map (fun m => if String.eqb m "GET" then 200 else 405) methods
    /\ Route.hub (snd out) = Route.hub s
    /\ Route.wss (snd out)
       = (Route.wss s || existsb (fun m => String.eqb m "GET") methods)
    /\ Route.servers_created (snd out)
       = Route.servers_created s
         + (if Route.wss s then 0
            else if existsb (fun m => String.eqb m "GET") methods then 1
                 else 0).
Proof.
  induction methods as [|m methods IH]; intros s; cbn zeta.
  - cbn. rewrite orb_false_r. destruct (Route.wss s); repeat split; lia.
  - cbn [Route.serve].
    destruct (Route.handler m s) as [r s1] eqn:Eh.
    specialize (IH s1). cbn zeta in IH.
    destruct (Route.serve methods s1) as [rs s2].
    cbn [fst snd] in *. destruct IH as (I1 & I2 & I3 & I4).
    cbn [List.map existsb]. rewrite I1, I2, I3, I4. clear I1 I2 I3 I4.
    unfold Route.handler in Eh.
    destruct (String.eqb m "GET"); cbn [negb] in Eh.
    + destruct (Route.wss s) eqn:Ew; injection Eh as <- <-;
        cbn [Route.status Route.hub Route.wss Route.servers_created orb];
        rewrite ?Ew; repeat split; lia.
    + injection Eh as <- <-. cbn [Route.status orb]. repeat split.
Qed.

(** X6: whatever requests the route receives after the module is loaded, it
    creates at most one WebSocket server, and exactly one as soon as a GET
    has arrived; a request with any other method is answered 405 and starts
    nothing, a GET is answered 200; no request touches the hub state. *)
Theorem route_starts_one_server methods :
  let out := Route.serve methods Route.boot in
  Route.servers_created (snd out) <= 1
  /\ (Route.wss (snd out) = true <-> In "GET" methods)
  /\ Route.servers_created (snd out) = (if Route.wss (snd out) then 1 else 0)
  /\ List.map Route.status (fst out)
     = List.map (fun m => if String.eqb m "GET" then 200 else 405) methods
  /\ Route.hub (snd out) = initial.
Proof.
  cbn zeta. destruct (serve_spec methods Route.boot) as (H1 & H2 & H3 & H4).
  cbn [Route.boot Route.wss Route.servers_created Route.hub orb] in *.
  rewrite H3, H4.
  assert (Hex : existsb (fun m => String.eqb m "GET") methods = true
                <-> In "GET" methods).
  { rewrite existsb_exists. split.
    - intros (m & Hin & ->%String.eqb_eq). exact Hin.
    - intros Hin. exists "GET". split; [exact Hin|reflexivity]. }
  destruct (existsb (fun m => String.eqb m "GET") methods);
    repeat split; try lia; try exact H1; try exact H2;
    try (apply Hex; reflexivity); intros Hin; try reflexivity;
    try (apply Hex in Hin; discriminate).
Qed.

(** ** More properties of the clients *)

Import ClientRun.

Lemma one_timer_cleared remembered e :
  one_timer remembered e ->
  timers (match remembered with
          | Some t => clearTimeout t e
          | None => e
          end) = [].
Proof.
  intros [He|(t & d & He & ->)].
  - destruct remembered; [|exact He]. unfold clearTimeout. cbn. by rewrite He.
  - unfold clearTimeout. cbn. rewrite He. cbn. by rewrite Nat.eqb_refl.
Qed.

Lemma one_timer_fired remembered e t :
  one_timer remembered e -> pending t e = true ->
  timers (clearTimeout t e) = [].
Proof.
  unfold pending. intros [He|(t' & d & He & _)] Hp; rewrite He in Hp.
  - discriminate.
  - cbn in Hp. rewrite orb_false_r in Hp.
    unfold clearTimeout. cbn. rewrite He. cbn. by rewrite Hp.
Qed.

Lemma class_scheduleReconnect_inv c :
  class_inv c -> class_inv (WebSocketClient.scheduleReconnect c).
Proof.
  destruct c as [w rt n u nt e]. unfold class_inv, WebSocketClient.scheduleReconnect.
  cbn [WebSocketClient.reconnectAttempts WebSocketClient.reconnectTimer
       WebSocketClient.env].
  intros (Hn & Ht & Hlt & Hs).
  unfold WebSocketClient.maxReconnectAttempts.
  destruct (Z.leb_spec 5 n) as [Hge|Hn5];
    cbn [WebSocketClient.reconnectAttempts WebSocketClient.reconnectTimer
         WebSocketClient.env]; [auto|].
  pose proof (one_timer_cleared rt e Ht) as Hc.
  unfold setTimeout.
  cbn [WebSocketClient.reconnectAttempts WebSocketClient.reconnectTimer
       WebSocketClient.env timers scheduled].
  rewrite Hc. split; [exact Hn|]. split; [right; eauto|]. split; [lia|].
  assert (Hsched : scheduled (match rt with
                              | Some t => clearTimeout t e
                              | None => e
                              end) = scheduled e) by by destruct rt.
  rewrite Hsched. apply Forall_app. split; [exact Hs|].
  apply Forall_singleton.
  assert (Hcases : n = 0%Z \/ n = 1%Z \/ n = 2%Z \/ n = 3%Z \/ n = 4%Z) by lia.
  unfold class_delays.
  destruct Hcases as [->|[->|[->|[->| ->]]]]; vm_compute; tauto.
Qed.

Lemma class_connect_inv c :
  class_inv c -> class_inv (WebSocketClient.connect c).
Proof.
  intros Hi. unfold WebSocketClient.connect.
  destruct (WebSocketClient.is_open c); [exact Hi|].
  destruct (WebSocketClient.url_valid c);
    [|by apply class_scheduleReconnect_inv].
  destruct c as [w rt n u nt e]. exact Hi.
Qed.

Lemma class_disconnect_inv c :
  class_inv c -> class_inv (WebSocketClient.disconnect c).
Proof.
  destruct c as [w rt n u nt e]. unfold class_inv, WebSocketClient.disconnect.
  cbn [WebSocketClient.reconnectAttempts WebSocketClient.reconnectTimer
       WebSocketClient.env WebSocketClient.ws].
  intros (Hn & Ht & Hlt & Hs).
  pose proof (one_timer_cleared rt e Ht) as Hc.
  assert (Hclose : forall s e0, timers (close s e0) = timers e0
                                /\ scheduled (close s e0) = scheduled e0).
  { intros s e0. unfold close. destruct (readyState s e0) as [r|]; [|done].
    by destruct (r <? CLOSING)%Z. }
  assert (Hfinal : forall e', timers e' = [] -> scheduled e' = scheduled e ->
             (0 <= n <= 5)%Z /\ one_timer None e'
             /\ (timers e' <> [] -> (n < 5)%Z)
             /\ Forall (fun d => In d class_delays) (scheduled e')).
  { intros e' He' Hs'. rewrite Hs', He'. split; [exact Hn|].
    split; [by left|]. split; [congruence|exact Hs]. }
  destruct rt as [t|], w as [s|];
    cbn [WebSocketClient.reconnectAttempts WebSocketClient.reconnectTimer
         WebSocketClient.env WebSocketClient.ws];
    apply Hfinal;
    rewrite ?(proj1 (Hclose _ _)), ?(proj2 (Hclose _ _)); auto.
Qed.

Lemma class_step_inv ev c c' :
  class_inv c -> WebSocketClient.step ev c = Some c' -> class_inv c'.
Proof.
  intros Hi. destruct ev as [s|s|s|t]; cbn [WebSocketClient.step].
  - destruct (readyState s (WebSocketClient.env c)) as [r|]; [|discriminate].
    destruct (r =? CONNECTING)%Z; [|discriminate]. intros [= <-].
    destruct c as [w rt n u nt e]. destruct Hi as (Hn & Ht & Hlt & Hs).
    unfold class_inv. cbn in *. repeat split; try lia; assumption.
  - destruct (readyState s (WebSocketClient.env c)) as [r|]; [|discriminate].
    destruct (r =? CLOSED)%Z; [discriminate|]. intros [= <-].
    apply class_scheduleReconnect_inv.
    destruct c as [w rt n u nt e]. exact Hi.
  - destruct (readyState s (WebSocketClient.env c)) as [r|]; [|discriminate].
    destruct (r =? CLOSED)%Z; [discriminate|]. intros [= <-].
    destruct c as [w rt n u nt e]. exact Hi.
  - destruct (pending t (WebSocketClient.env c)) eqn:Hp; [|discriminate].
    intros [= <-]. apply class_connect_inv.
    destruct c as [w rt n u nt e]. unfold class_inv in *.
    unfold WebSocketClient.with_env.
    cbn [WebSocketClient.reconnectAttempts WebSocketClient.reconnectTimer
         WebSocketClient.env] in *.
    destruct Hi as (Hn & Ht & Hlt & Hs).
    pose proof (one_timer_fired rt e t Ht Hp) as Hc.
    assert (Hne : timers e <> []).
    { intros He. unfold pending in Hp. rewrite He in Hp. discriminate. }
    specialize (Hlt Hne).
    split; [lia|]. split; [left; exact Hc|].
    split; [rewrite Hc; congruence|exact Hs].
Qed.

(** X7: whatever the browser delivers and whatever the page calls, the
    class never has more than one timer pending, its counter stays between 0
    and 5, and every delay it has ever armed is one of 3000, 6000, 12000,
    24000 and 48000 ms. *)
Theorem class_timer_discipline actions url_valid c :
  perform_all_class actions (WebSocketClient.new url_valid) = Some c ->
  length (timers (WebSocketClient.env c)) <= 1
  /\ (0 <= WebSocketClient.reconnectAttempts c <= 5)%Z
  /\ Forall (fun d => In d class_delays) (scheduled (WebSocketClient.env c)).
Proof.
  assert (G : forall actions c0 c1,
             class_inv c0 -> perform_all_class actions c0 = Some c1 ->
             class_inv c1).
  { clear. induction actions as [|a actions IH]; intros c0 c1 Hi.
    - by intros [= <-].
    - cbn [perform_all_class].
      destruct (perform_class a c0) as [c0'|] eqn:Ea; [|discriminate].
      apply IH. destruct a as [ev| |]; cbn [perform_class] in Ea.
      + by apply (class_step_inv ev c0).
      + injection Ea as <-. by apply class_connect_inv.
      + injection Ea as <-. by apply class_disconnect_inv. }
  intros Hrun.
  assert (H0 : class_inv (WebSocketClient.new url_valid)).
  { unfold class_inv. cbn. split; [lia|]. split; [by left|]. split; [done|].
    constructor. }
  destruct (G actions _ c H0 Hrun) as (Hn & Ht & _ & Hs).
  split; [|split; [exact Hn|exact Hs]].
  destruct Ht as [->|(t & d & -> & _)]; cbn; lia.
Qed.

Lemma class_timer_discipline_witness :
  exists c,
    perform_all_class
      (CallConnect :: List.map Deliver six_failures ++ [CallConnect; CallDisconnect])
      (WebSocketClient.new true) = Some c
    /\ length (timers (WebSocketClient.env c)) <= 1
    /\ (0 <= WebSocketClient.reconnectAttempts c <= 5)%Z
    /\ Forall (fun d => In d class_delays) (scheduled (WebSocketClient.env c)).
Proof.
  eexists. split; [vm_compute; reflexivity|].
  eapply (class_timer_discipline
            (CallConnect :: List.map Deliver six_failures
             ++ [CallConnect; CallDisconnect]) true).
  vm_compute. reflexivity.
Defined.

Lemma hook_scheduleReconnect_inv h :
  hook_inv h -> hook_inv (UseWebSocket.scheduleReconnect h).
Proof.
  destruct h as [cd cg uc ms w rt n u e].
  unfold hook_inv, UseWebSocket.scheduleReconnect.
  cbn [UseWebSocket.reconnectAttemptsRef UseWebSocket.reconnectTimerRef
       UseWebSocket.env].
  intros (Hn & Ht & Hs).
  unfold UseWebSocket.maxReconnectAttempts.
  destruct (Z.leb_spec 5 n) as [Hge|Hn5];
    cbn [UseWebSocket.reconnectAttemptsRef UseWebSocket.reconnectTimerRef
         UseWebSocket.env]; [auto|].
  pose proof (one_timer_cleared rt e Ht) as Hc.
  unfold setTimeout.
  cbn [UseWebSocket.reconnectAttemptsRef UseWebSocket.reconnectTimerRef
       UseWebSocket.env timers scheduled].
  rewrite Hc. split; [exact Hn|]. split; [right; eauto|].
  assert (Hsched : scheduled (match rt with
                              | Some t => clearTimeout t e
                              | None => e
                              end) = scheduled e) by by destruct rt.
  rewrite Hsched. apply Forall_app. split; [exact Hs|].
  apply Forall_singleton.
  assert (Hcases : n = 0%Z \/ n = 1%Z \/ n = 2%Z \/ n = 3%Z \/ n = 4%Z) by lia.
  unfold hook_delays.
  destruct Hcases as [->|[->|[->|[->| ->]]]]; vm_compute; tauto.
Qed.

Lemma hook_connect_inv h :
  hook_inv h -> hook_inv (UseWebSocket.connect h).
Proof.
  intros Hi. unfold UseWebSocket.connect.
  destruct (UseWebSocket.is_open h); [exact Hi|].
  destruct (UseWebSocket.connecting h); [exact Hi|].
  destruct h as [cd cg uc ms w rt n u e].
  unfold UseWebSocket.set_attempts, UseWebSocket.setConnecting.
  cbn [UseWebSocket.url_valid UseWebSocket.reconnectAttemptsRef
       UseWebSocket.reconnectTimerRef UseWebSocket.env
       UseWebSocket.connected UseWebSocket.connecting UseWebSocket.userCount
       UseWebSocket.messages UseWebSocket.wsRef].
  destruct Hi as (Hn & Ht & Hs).
  cbn [UseWebSocket.reconnectAttemptsRef UseWebSocket.reconnectTimerRef
       UseWebSocket.env] in Hn, Ht, Hs.
  destruct u.
  - unfold hook_inv. cbn. split; [lia|]. split; [exact Ht|exact Hs].
  - apply hook_scheduleReconnect_inv. unfold hook_inv.
    cbn [UseWebSocket.reconnectAttemptsRef UseWebSocket.reconnectTimerRef
         UseWebSocket.env].
    split; [lia|]. split; [exact Ht|exact Hs].
Qed.

Lemma hook_cleanup_inv h :
  hook_inv h -> hook_inv (UseWebSocket.cleanup h).
Proof.
  destruct h as [cd cg uc ms w rt n u e].
  unfold hook_inv, UseWebSocket.cleanup, UseWebSocket.with_env.
  cbn [UseWebSocket.reconnectAttemptsRef UseWebSocket.reconnectTimerRef
       UseWebSocket.env UseWebSocket.wsRef].
  intros (Hn & Ht & Hs).
  pose proof (one_timer_cleared rt e Ht) as Hc.
  assert (Hsched : scheduled (match rt with
                              | Some t => clearTimeout t e
                              | None => e
                              end) = scheduled e) by by destruct rt.
  assert (Hclose : forall s e0, timers (close s e0) = timers e0
                                /\ scheduled (close s e0) = scheduled e0).
  { intros s e0. unfold close. destruct (readyState s e0) as [r|]; [|done].
    by destruct (r <? CLOSING)%Z. }
  split; [exact Hn|].
  set (e1 := match rt with
             | Some t => clearTimeout t e
             | None => e
             end) in *.
  destruct w as [s|].
  - destruct (Hclose s e1) as [H1 H2]. unfold one_timer. rewrite H1, H2, Hsched.
    split; [left; exact Hc|exact Hs].
  - rewrite Hsched. split; [left; exact Hc|exact Hs].
Qed.

Lemma hook_step_inv ev h h' :
  hook_inv h -> UseWebSocket.step ev h = Some h' -> hook_inv h'.
Proof.
  intros Hi. destruct ev as [s|s|s|t]; cbn [UseWebSocket.step].
  - destruct (readyState s (UseWebSocket.env h)) as [r|]; [|discriminate].
    destruct (r =? CONNECTING)%Z; [|discriminate]. intros [= <-].
    destruct h as [cd cg uc ms w rt n u e]. destruct Hi as (Hn & Ht & Hs).
    unfold hook_inv. cbn in *. repeat split; try lia; assumption.
  - destruct (readyState s (UseWebSocket.env h)) as [r|]; [|discriminate].
    destruct (r =? CLOSED)%Z; [discriminate|]. intros [= <-].
    apply hook_scheduleReconnect_inv.
    destruct h as [cd cg uc ms w rt n u e]. exact Hi.
  - destruct (readyState s (UseWebSocket.env h)) as [r|]; [|discriminate].
    destruct (r =? CLOSED)%Z; [discriminate|]. intros [= <-].
    destruct h as [cd cg uc ms w rt n u e]. exact Hi.
  - destruct (pending t (UseWebSocket.env h)) eqn:Hp; [|discriminate].
    intros [= <-]. apply hook_connect_inv.
    destruct h as [cd cg uc ms w rt n u e]. unfold hook_inv in *.
    unfold UseWebSocket.with_env.
    cbn [UseWebSocket.reconnectAttemptsRef UseWebSocket.reconnectTimerRef
         UseWebSocket.env] in *.
    destruct Hi as (Hn & Ht & Hs).
    pose proof (one_timer_fired rt e t Ht Hp) as Hc.
    split; [exact Hn|]. split; [left; exact Hc|exact Hs].
Qed.

(** X8: whatever the browser delivers, and however often the page calls
    [connect] or React runs the cleanup, the hook never has more than one
    timer pending, and every delay it has ever armed is one of 1500, 3000,
    6000, 12000 and 24000 ms: 48000 ms is never armed. *)
Theorem hook_timer_discipline actions url_valid h :
  perform_all_hook actions (UseWebSocket.initial url_valid) = Some h ->
  length (timers (UseWebSocket.env h)) <= 1
  /\ Forall (fun d => In d hook_delays) (scheduled (UseWebSocket.env h))
  /\ ~ In 48000%Q (scheduled (UseWebSocket.env h)).
Proof.
  assert (G : forall actions h0 h1,
             hook_inv h0 -> perform_all_hook actions h0 = Some h1 ->
             hook_inv h1).
  { clear. induction actions as [|a actions IH]; intros h0 h1 Hi.
    - by intros [= <-].
    - cbn [perform_all_hook].
      destruct (perform_hook a h0) as [h0'|] eqn:Ea; [|discriminate].
      apply IH. destruct a as [ev| |]; cbn [perform_hook] in Ea.
      + by apply (hook_step_inv ev h0).
      + injection Ea as <-. by apply hook_connect_inv.
      + injection Ea as <-. by apply hook_cleanup_inv. }
  intros Hrun.
  assert (H0 : hook_inv (UseWebSocket.initial url_valid)).
  { unfold hook_inv. cbn. split; [lia|]. split; [by left|]. constructor. }
  destruct (G actions _ h H0 Hrun) as (Hn & Ht & Hs).
  split; [|split; [exact Hs|]].
  - destruct Ht as [->|(t & d & -> & _)]; cbn; lia.
  - intros Hin. rewrite Forall_forall in Hs.
    apply list_elem_of_In in Hin. specialize (Hs _ Hin).
    unfold hook_delays in Hs. cbn [In] in Hs.
    destruct Hs as [E|[E|[E|[E|[E|[]]]]]]; discriminate E.
Qed.

Lemma hook_timer_discipline_witness :
  exists h,
    perform_all_hook
      (CallConnect :: List.map Deliver five_failures ++ [CallConnect; CallDisconnect])
      (UseWebSocket.initial true) = Some h
    /\ length (timers (UseWebSocket.env h)) <= 1
    /\ Forall (fun d => In d hook_delays) (scheduled (UseWebSocket.env h))
    /\ ~ In 48000%Q (scheduled (UseWebSocket.env h)).
Proof.
  eexists. split; [vm_compute; reflexivity|].
  eapply (hook_timer_discipline
            (CallConnect :: List.map Deliver five_failures
             ++ [CallConnect; CallDisconnect]) true).
  vm_compute. reflexivity.
Defined.

(** *** Sending after a disconnect *)

Lemma class_scheduleReconnect_is_open c :
  WebSocketClient.is_open (WebSocketClient.scheduleReconnect c)
  = WebSocketClient.is_open c.
Proof.
  destruct c as [w rt n u nt e]. unfold WebSocketClient.scheduleReconnect.
  cbn [WebSocketClient.reconnectAttempts WebSocketClient.reconnectTimer
       WebSocketClient.env].
  destruct (WebSocketClient.maxReconnectAttempts <=? n)%Z; [reflexivity|].
  unfold WebSocketClient.is_open, setTimeout, readyState.
  cbn [WebSocketClient.ws WebSocketClient.env sockets].
  by destruct rt.
Qed.

Lemma class_connect_not_open c :
  WebSocketClient.is_open c = false ->
  WebSocketClient.is_open (WebSocketClient.connect c) = false.
Proof.
  intros Hc. unfold WebSocketClient.connect. rewrite Hc.
  destruct (WebSocketClient.url_valid c).
  - unfold WebSocketClient.is_open, new_WebSocket, readyState.
    cbn [WebSocketClient.ws WebSocketClient.env sockets].
    rewrite lookup_app_r by lia. by rewrite Nat.sub_diag.
  - by rewrite class_scheduleReconnect_is_open.
Qed.

Lemma class_step_not_open ev c c' :
  is_Open (Deliver ev) = false ->
  WebSocketClient.is_open c = false ->
  WebSocketClient.step ev c = Some c' ->
  WebSocketClient.is_open c' = false.
Proof.
  intros Hev Hc. destruct ev as [s|s|s|t]; [discriminate| | |];
    cbn [WebSocketClient.step].
  - destruct (readyState s (WebSocketClient.env c)) as [r|] eqn:Hr;
      [|discriminate].
    destruct (r =? CLOSED)%Z; [discriminate|]. intros [= <-].
    unfold WebSocketClient.onclose. rewrite class_scheduleReconnect_is_open.
    destruct c as [w rt n u nt e].
    unfold WebSocketClient.is_open, readyState, set_readyState in *.
    cbn [WebSocketClient.ws WebSocketClient.env sockets
         WebSocketClient.notifyConnectionHandlers WebSocketClient.with_env] in *.
    destruct w as [s0|]; [|reflexivity].
    destruct (decide (s = s0)) as [->|Hne].
    + rewrite list_lookup_insert_eq by (apply lookup_lt_is_Some; eauto).
      reflexivity.
    + by rewrite list_lookup_insert_ne.
  - destruct (readyState s (WebSocketClient.env c)) as [r|]; [|discriminate].
    destruct (r =? CLOSED)%Z; [discriminate|]. intros [= <-].
    destruct c as [w rt n u nt e]. exact Hc.
  - destruct (pending t (WebSocketClient.env c)); [|discriminate].
    intros [= <-]. apply class_connect_not_open.
    destruct c as [w rt n u nt e]. exact Hc.
Qed.

(** X9: once [disconnect] has returned, and as long as the browser reports
    no socket open, the class says it is not connected and [send] returns
    false without handing anything to a socket, whatever else happens
    (closes, errors, timers, calls of [connect] and [disconnect]). Nothing
    is queued for later. *)
Theorem no_send_after_disconnect actions c c' :
  forallb (fun a => negb (is_Open a)) actions = true ->
  perform_all_class actions (WebSocketClient.disconnect c) = Some c' ->
  isConnected c' = false
  /\ forall message now raises, send message now raises c' = (false, None).
Proof.
  assert (G : forall actions c0 c1,
             forallb (fun a => negb (is_Open a)) actions = true ->
             WebSocketClient.is_open c0 = false ->
             perform_all_class actions c0 = Some c1 ->
             WebSocketClient.is_open c1 = false).
  { clear. induction actions as [|a actions IH]; intros c0 c1 Hs Hc.
    - by intros [= <-].
    - cbn [forallb] in Hs. apply andb_prop in Hs as [Ha Hs].
      apply negb_true_iff in Ha. cbn [perform_all_class].
      destruct (perform_class a c0) as [c0'|] eqn:Ea; [|discriminate].
      apply IH; [exact Hs|]. destruct a as [ev| |]; cbn [perform_class] in Ea.
      + by apply (class_step_not_open ev c0).
      + injection Ea as <-. by apply class_connect_not_open.
      + injection Ea as <-.
        destruct (disconnect_cancels_and_closes c0) as (_ & Hw & _).
        unfold WebSocketClient.is_open. by rewrite Hw. }
  intros Hs Hrun.
  assert (H0 : WebSocketClient.is_open (WebSocketClient.disconnect c) = false).
  { destruct (disconnect_cancels_and_closes c) as (_ & Hw & _).
    unfold WebSocketClient.is_open. by rewrite Hw. }
  pose proof (G actions _ c' Hs H0 Hrun) as Hc.
  split; [exact Hc|]. intros message now raises. unfold send. by rewrite Hc.
Qed.

Lemma no_send_after_disconnect_witness :
  isConnected connected_client = true
  /\ exists c',
      perform_all_class [Deliver (Close 0); Deliver (Timeout 1)]
        (WebSocketClient.disconnect connected_client) = Some c'
      /\ isConnected c' = false
      /\ forall message now raises, send message now raises c' = (false, None).
Proof.
  split; [vm_compute; reflexivity|].
  eexists. split; [vm_compute; reflexivity|].
  apply (no_send_after_disconnect [Deliver (Close 0); Deliver (Timeout 1)]
           connected_client); vm_compute; reflexivity.
Defined.

(** *** The handler tables *)

Import Handlers.

Lemma register_all_tables rs :
  (forall type,
      messageHandlers (register_all rs Handlers.empty) !! type
      = last_handler type rs)
  /\ (forall handler,
        handler ∈ connectionHandlers (register_all rs Handlers.empty)
        <-> subscribed handler rs = true).
Proof.
  induction rs as [|r rs [IHm IHc]] using rev_ind.
  - split; [intros type; apply lookup_empty|].
    intros handler. cbn. rewrite elem_of_empty. split; [tauto|discriminate].
  - unfold register_all, last_handler, subscribed.
    rewrite fold_left_app. cbn [fold_left].
    fold (register_all rs Handlers.empty). split.
    + intros type. rewrite fold_left_app. cbn [fold_left].
      fold (last_handler type rs). rewrite <- IHm.
      destruct r as [type' k|k|k]; cbn [register]; try reflexivity.
      unfold onMessage. cbn [messageHandlers].
      destruct (String.eqb_spec type' type) as [->|Hne].
      * apply lookup_insert_eq.
      * by rewrite lookup_insert_ne.
    + intros handler. rewrite fold_left_app. cbn [fold_left].
      fold (subscribed handler rs).
      destruct r as [type' k|k|k]; cbn [register].
      * apply IHc.
      * unfold onConnectionChange. cbn [connectionHandlers].
        rewrite elem_of_union, elem_of_singleton, IHc.
        destruct (Nat.eqb_spec k handler) as [->|Hne].
        -- split; [reflexivity|by left].
        -- split; [intros [?|?]; [congruence|done]|by right].
      * unfold removeConnectionHandler. cbn [connectionHandlers].
        rewrite elem_of_difference, elem_of_singleton, IHc.
        destruct (Nat.eqb_spec k handler) as [->|Hne].
        -- split; [intros [_ H]; by destruct H|discriminate].
        -- split; [by intros [? _]|intros ?; split; [done|congruence]].
Qed.

(** X10: however handlers were registered, an inbound frame is handed to
    exactly one handler, the one registered last for its type, and to none
    if no handler was registered for that type or the frame is not JSON:
    a later [onMessage] for a type replaces the earlier one. *)
Theorem dispatch_calls_last_handler rs data :
  dispatch data (register_all rs Handlers.empty)
  = match data with
    | Some message =>
        match last_handler (UseWebSocket.msg_type message) rs with
        | Some handler => [(handler, message)]
        | None => []
        end
    | None => []
    end.
Proof.
  destruct data as [message|]; [|reflexivity]. unfold dispatch.
  destruct (register_all_tables rs) as [Hm _]. by rewrite Hm.
Qed.


(** *** From one hook to another *)

Lemma sendMessage_frame content now_client raises sender frame :
  Wire.sendMessage content now_client raises sender = Some frame ->
  frame = JObject [("type", JString "message"); ("content", JString content);
                   ("timestamp", JString now_client)].
Proof.
  unfold Wire.sendMessage.
  destruct (negb (UseWebSocket.is_open sender)); [discriminate|].
  destruct raises; [discriminate|]. by intros [= <-].
Qed.

Lemma truthy_string_nonempty s :
  s <> ""%string -> UseWebSocket.truthy_string (Some s) = Some s.
Proof.
  intros Hs. unfold UseWebSocket.truthy_string.
  by destruct (String.eqb_spec s "").
Qed.

(** X12: a text that a hook sends through the standalone server (or the
    Next.js route) reaches every other open connection, and never the
    sender; a hook that receives it puts it in front of its list with the
    id and the time the hub assigned: the time the sending hook wrote in the
    frame is not shown. *)
Theorem relayed_message_is_displayed sender content now_client frame
    clientId socket now h :
  Wire.sendMessage content now_client false sender = Some frame ->
  content <> ""%string -> clientId <> ""%string -> now <> ""%string ->
  exists new msg,
    wire (state_of (Hub.onMessage clientId socket (Some frame) now h))
    = wire h ++ new
    /\ NextApi.onMessage clientId socket (Some frame) now h
       = Hub.onMessage clientId socket (Some frame) now h
    /\ (forall w, In w new ->
          recipient w <> clientId /\ Wire.read (payload w) = Some msg)
    /\ (forall id c,
          connections h !! id = Some c -> id <> clientId ->
          Hub.readyState (ws c) = 1%Z -> sendThrows (ws c) = false ->
          exists f, In (Sent id f) new)
    /\ forall k,
         UseWebSocket.messages (UseWebSocket.onmessage (Some msg) k)
         = take 100 ({| UseWebSocket.content := content;
                        UseWebSocket.clientId := clientId;
                        UseWebSocket.timestamp := now |}
                     :: UseWebSocket.messages k).
Proof.
  intros Hsend Hc Hi Hn. apply sendMessage_frame in Hsend as ->.
  rewrite NextApi_onMessage_eq, onMessage_object.
  cbn [assoc String.eqb Ascii.eqb Bool.eqb is_string truthy andb].
  destruct (String.eqb_spec content "") as [|_]; [done|]. cbn [negb].
  cbn zeta.
  match goal with |- context [broadcast ?d ?e ?s] =>
    destruct (broadcast_wire d e s) as (new & Hw & Hp & Hs) end.
  eexists new, _. split; [exact Hw|]. split; [reflexivity|]. split; [|split].
  - intros w Hin. destruct (Hp w Hin) as [Hr ->]. split; [exact Hr|].
    cbn. reflexivity.
  - intros id c Hl Hne Hr Hst. eexists. by apply (Hs id c).
  - intros k. unfold UseWebSocket.onmessage.
    cbn [UseWebSocket.msg_type UseWebSocket.msg_content
         UseWebSocket.msg_clientId UseWebSocket.msg_timestamp
         String.eqb Ascii.eqb Bool.eqb andb].
    by rewrite !truthy_string_nonempty.
Qed.

Lemma relayed_message_is_displayed_witness :
  exists new msg,
    wire (state_of (Hub.onMessage "a" open_socket
                      (Wire.sendMessage "hello" "2024-05-01T09:59:59.000Z"
                                        false Wire.connected_hook)
                      "2024-05-01T10:00:01.000Z" hub_pair))
    = wire hub_pair ++ new
    /\ (forall w, In w new -> Wire.read (payload w) = Some msg)
    /\ forall k,
         UseWebSocket.messages (UseWebSocket.onmessage (Some msg) k)
         = take 100 ({| UseWebSocket.content := "hello";
                        UseWebSocket.clientId := "a";
                        UseWebSocket.timestamp := "2024-05-01T10:00:01.000Z" |}
                     :: UseWebSocket.messages k).
Proof.
  destruct (relayed_message_is_displayed Wire.connected_hook "hello"
              "2024-05-01T09:59:59.000Z"
              (JObject [("type", JString "message");
                        ("content", JString "hello");
                        ("timestamp", JString "2024-05-01T09:59:59.000Z")])
              "a" open_socket "2024-05-01T10:00:01.000Z" hub_pair)
    as (new & msg & Hw & _ & Hp & _ & Hk);
    try solve [vm_compute; reflexivity | discriminate].
  exists new, msg. split; [exact Hw|]. split; [|exact Hk].
  intros w Hin. by destruct (Hp w Hin).
Defined.

(** X13: through the legacy server the same text is lost on the way. The
    legacy server relays the object as the hook wrote it, without a
    [clientId], and a hook drops a message envelope that has none: every
    other open connection is sent the frame, and every hook that receives it
    keeps its state unchanged. *)
Theorem legacy_relay_is_dropped_by_hooks sender content now_client frame
    clientId socket now h :
  Wire.sendMessage content now_client false sender = Some frame ->
  exists new msg,
    wire (state_of (Legacy.onMessage clientId socket (Some frame) now h))
    = wire h ++ new
    /\ (forall w, In w new ->
          recipient w <> clientId /\ Wire.read (payload w) = Some msg)
    /\ (forall id c,
          connections h !! id = Some c -> id <> clientId ->
          Hub.readyState (ws c) = 1%Z -> sendThrows (ws c) = false ->
          exists f, In (Sent id f) new)
    /\ forall k, UseWebSocket.onmessage (Some msg) k = k.
Proof.
  intros Hsend. apply sendMessage_frame in Hsend as ->.
  unfold Legacy.onMessage, bind, JSON_parse, lift, prop, messages_append.
  cbn [ret assoc String.eqb Ascii.eqb Bool.eqb is_string andb].
  match goal with |- context [broadcast ?d ?e ?s] =>
    destruct (broadcast_wire d e s) as (new & Hw & Hp & Hs) end.
  cbn [wire connections] in Hw, Hs.
  eexists new, _. split; [exact Hw|]. split; [|split].
  - intros w Hin. destruct (Hp w Hin) as [Hr ->]. split; [exact Hr|].
    cbn. reflexivity.
  - intros id c Hl Hne Hr Hst. eexists. by apply (Hs id c).
  - intros k. unfold UseWebSocket.onmessage.
    cbn [UseWebSocket.msg_type UseWebSocket.msg_content
         UseWebSocket.msg_clientId UseWebSocket.msg_timestamp
         String.eqb Ascii.eqb Bool.eqb andb].
    destruct (UseWebSocket.truthy_string (Some content)),
             (UseWebSocket.truthy_string (Some now_client)); reflexivity.
Qed.

Lemma legacy_relay_is_dropped_by_hooks_witness :
  exists new msg,
    wire (state_of (Legacy.onMessage "a" open_socket
                      (Wire.sendMessage "hello" "2024-05-01T09:59:59.000Z"
                                        false Wire.connected_hook)
                      "2024-05-01T10:00:01.000Z" hub_pair))
    = wire hub_pair ++ new
    /\ (exists f, In (Sent "b" f) new)
    /\ forall k, UseWebSocket.onmessage (Some msg) k = k.
Proof.
  destruct (legacy_relay_is_dropped_by_hooks Wire.connected_hook "hello"
              "2024-05-01T09:59:59.000Z"
              (JObject [("type", JString "message");
                        ("content", JString "hello");
                        ("timestamp", JString "2024-05-01T09:59:59.000Z")])
              "a" open_socket "2024-05-01T10:00:01.000Z" hub_pair)
    as (new & msg & Hw & _ & Hs & Hk); [vm_compute; reflexivity|].
  exists new, msg. split; [exact Hw|]. split; [|exact Hk].
  apply (Hs "b" (conn open_socket));
    solve [vm_compute; reflexivity | discriminate].
Defined.

(** *** What inbound frames can change in the hook *)

Lemma onmessage_view data h :
  UseWebSocket.env (UseWebSocket.onmessage data h) = UseWebSocket.env h
  /\ UseWebSocket.wsRef (UseWebSocket.onmessage data h) = UseWebSocket.wsRef h
  /\ UseWebSocket.reconnectTimerRef (UseWebSocket.onmessage data h)
     = UseWebSocket.reconnectTimerRef h
  /\ UseWebSocket.reconnectAttemptsRef (UseWebSocket.onmessage data h)
     = UseWebSocket.reconnectAttemptsRef h
  /\ UseWebSocket.connected (UseWebSocket.onmessage data h)
     = UseWebSocket.connected h
  /\ UseWebSocket.connecting (UseWebSocket.onmessage data h)
     = UseWebSocket.connecting h
  /\ UseWebSocket.userCount (UseWebSocket.onmessage data h)
     = Wire.counted data (UseWebSocket.userCount h).
Proof.
  unfold UseWebSocket.onmessage, Wire.counted.
  destruct data as [message|]; [|repeat split].
  destruct (String.eqb (UseWebSocket.msg_type message) "connected").
  - destruct (UseWebSocket.msg_userCount message),
             (UseWebSocket.msg_recentMessages message); repeat split.
  - destruct (String.eqb (UseWebSocket.msg_type message) "userCount").
    + destruct (UseWebSocket.msg_count message); repeat split.
    + destruct (String.eqb (UseWebSocket.msg_type message) "message");
        [|repeat split].
      destruct (UseWebSocket.truthy_string (UseWebSocket.msg_content message)),
               (UseWebSocket.truthy_string (UseWebSocket.msg_clientId message)),
               (UseWebSocket.truthy_string (UseWebSocket.msg_timestamp message));
        repeat split.
Qed.

(** X14: no frame the hook receives, well-formed or not, changes anything
    about its connection: socket, timer, attempt counter, browser state and
    the connected and connecting flags stay as they are; and the user count
    it shows is the count of the latest [connected] or [userCount] envelope
    that carried one. *)
Theorem frames_leave_connection_alone frames h :
  let h' := UseWebSocket.receive_all frames h in
  UseWebSocket.env h' = UseWebSocket.env h
  /\ UseWebSocket.wsRef h' = UseWebSocket.wsRef h
  /\ UseWebSocket.reconnectTimerRef h' = UseWebSocket.reconnectTimerRef h
  /\ UseWebSocket.reconnectAttemptsRef h' = UseWebSocket.reconnectAttemptsRef h
  /\ UseWebSocket.connected h' = UseWebSocket.connected h
  /\ UseWebSocket.connecting h' = UseWebSocket.connecting h
  /\ UseWebSocket.userCount h'
     = fold_left (fun n data => Wire.counted data n) frames
                 (UseWebSocket.userCount h).
Proof.
  cbn zeta. revert h. induction frames as [|data frames IH]; intros h.
  - repeat split.
  - cbn [UseWebSocket.receive_all fold_left].
    fold (UseWebSocket.receive_all frames (UseWebSocket.onmessage data h)).
    destruct (IH (UseWebSocket.onmessage data h))
      as (I1 & I2 & I3 & I4 & I5 & I6 & I7).
    destruct (onmessage_view data h) as (V1 & V2 & V3 & V4 & V5 & V6 & V7).
    rewrite I1, I2, I3, I4, I5, I6, I7, V1, V2, V3, V4, V5, V6, V7.
    repeat split.
Qed.

(** *** The welcome, read by a hook *)

Lemma read_entries_length ms es :
  Wire.read_entries ms = Some es -> length es = length ms.
Proof.
  revert es. induction ms as [|m ms IH]; intros es; cbn [Wire.read_entries].
  - by intros [= <-].
  - destruct (Wire.read_entry m); [|discriminate].
    destruct (Wire.read_entries ms) as [es'|]; [|discriminate].
    intros [= <-]. cbn. f_equal. by apply IH.
Qed.

(** X15: when the hub accepts a hook on a socket whose send works, and the
    recent history is text, the first frame on that socket is the welcome,
    and the hook that reads it shows the user count the hub computed, itself
    included, and replaces its list by the recent records in the order of
    the hub, oldest first, at most 10 of them. *)
Theorem welcome_read_by_hook h clientId socket at_ ua recent :
  sendThrows socket = false ->
  Wire.read_entries (slice_last 10 (messages h)) = Some recent ->
  let registered :=
    <[clientId := {| ws := socket; connectedAt := at_; userAgent := ua |}]>
      (connections h) in
  exists welcome msg rest,
    wire (state_of (onConnection clientId socket at_ ua h))
    = wire h ++ Sent clientId welcome :: rest
    /\ Wire.read welcome = Some msg
    /\ length recent <= 10
    /\ forall k,
         UseWebSocket.messages (UseWebSocket.onmessage (Some msg) k) = recent
         /\ UseWebSocket.userCount (UseWebSocket.onmessage (Some msg) k)
            = Z.of_nat (size registered).
Proof.
  intros Hs Hr. cbn zeta.
  set (c := {| ws := socket; connectedAt := at_; userAgent := ua |}).
  unfold onConnection, bind, connections_set, connections_size,
    messages_recent, ws_send. cbn. fold c. rewrite Hs.
  change (drop (length (messages h) - 10) (messages h))
    with (slice_last 10 (messages h)).
  match goal with |- context [broadcast ?d ?e ?s] =>
    destruct (broadcast_wire d e s) as (new & Hw & _) end.
  eexists _, _, new. rewrite Hw. cbn [log_wire wire]. rewrite <- app_assoc.
  split; [reflexivity|]. split; [cbn [Wire.read]; rewrite Hr; reflexivity|].
  split.
  - rewrite (read_entries_length _ _ Hr), length_slice_last. lia.
  - intros k. split; reflexivity.
Qed.

Lemma welcome_read_by_hook_witness :
  let h := receive_all
             [inbound_from_a (Some (text_frame "one")) "2024-05-01T10:00:01.000Z";
              inbound_from_a (Some (text_frame "two")) "2024-05-01T10:00:02.000Z"]
             hub_pair in
  exists welcome msg rest,
    wire (state_of (onConnection "c" open_socket "2024-05-01T10:00:05.000Z"
                                 None h))
    = wire h ++ Sent "c" welcome :: rest
    /\ Wire.read welcome = Some msg
    /\ forall k,
         List.map UseWebSocket.content
           (UseWebSocket.messages (UseWebSocket.onmessage (Some msg) k))
         = ["one"; "two"]
         /\ UseWebSocket.userCount (UseWebSocket.onmessage (Some msg) k) = 3%Z.
Proof.
  cbn zeta.
  match goal with |- context [onConnection _ _ _ _ ?h] =>
    destruct (welcome_read_by_hook h "c" open_socket
                "2024-05-01T10:00:05.000Z" None
                [{| UseWebSocket.content := "one"; UseWebSocket.clientId := "a";
                    UseWebSocket.timestamp := "2024-05-01T10:00:01.000Z" |};
                 {| UseWebSocket.content := "two"; UseWebSocket.clientId := "a";
                    UseWebSocket.timestamp := "2024-05-01T10:00:02.000Z" |}])
      as (welcome & msg & rest & Hw & Hr & _ & Hk)
  end; try solve [vm_compute; reflexivity].
  exists welcome, msg, rest. split; [exact Hw|]. split; [exact Hr|].
  intros k. destruct (Hk k) as [Hm Hu]. rewrite Hm. split; [reflexivity|].
  rewrite Hu. vm_compute. reflexivity.
Defined.

(** *** Error, then close *)

(** X16: when a socket reports an error and then closes, both handlers run.
    The second removal finds the identity already gone and changes nothing
    by itself, but the presence update is broadcast a second time, with the
    size the registry has by then; nothing raises. *)
Theorem close_after_error_announces_again h clientId :
  let h1 := state_of (onError clientId h) in
  exists h2 new,
    connections h1 !! clientId = None
    /\ onClose clientId h1 = Normal tt h2
    /\ wire h2 = wire h1 ++ new
    /\ (forall w, In w new ->
          recipient w <> clientId
          /\ payload w = UserCount (size (connections h1)))
    /\ (forall id c,
          connections h1 !! id = Some c ->
          Hub.readyState (ws c) = 1%Z -> sendThrows (ws c) = false ->
          In (Sent id (UserCount (size (connections h1)))) new)
    /\ connections h2 ⊆ connections h1
    /\ messages h2 = messages h.
Proof.
  cbn zeta.
  assert (Hgone : connections (state_of (onError clientId h)) !! clientId = None).
  { unfold onError, bind, console_error, connections_delete, connections_size.
    match goal with |- context [broadcast ?d ?e ?s] =>
      destruct (broadcast_shrinks d e s) as [Hc _] end.
    eapply lookup_weaken_None; [|exact Hc]. cbn [connections].
    apply lookup_delete_eq. }
  assert (Hmsg : messages (state_of (onError clientId h)) = messages h).
  { unfold onError, bind, console_error, connections_delete, connections_size.
    match goal with |- context [broadcast ?d ?e ?s] =>
      destruct (broadcast_shrinks d e s) as [_ Hm] end.
    exact Hm. }
  set (h1 := state_of (onError clientId h)) in *. clearbody h1.
  assert (E : onClose clientId h1
              = broadcast (UserCount (size (connections h1))) clientId h1).
  { unfold onClose, bind, connections_delete, connections_size.
    rewrite (delete_id _ _ Hgone). by destruct h1. }
  destruct (broadcast_spec (UserCount (size (connections h1))) clientId h1)
    as (h2 & E2 & Hm & _).
  destruct (broadcast_wire (UserCount (size (connections h1))) clientId h1)
    as (new & Hw & Hp & Hs).
  destruct (broadcast_shrinks (UserCount (size (connections h1))) clientId h1)
    as [Hsub _].
  rewrite E2 in Hw, Hsub. cbn [state_of] in Hw, Hsub.
  exists h2, new. split; [exact Hgone|]. split; [by rewrite E|].
  split; [exact Hw|]. split; [exact Hp|]. split.
  - intros id c Hl Hr Hst. apply (Hs id c); try done.
    intros ->. rewrite Hgone in Hl. discriminate.
  - split; [exact Hsub|]. by rewrite Hm.
Qed.
